(** * Change Impact Simulator: the decision core of
      [src/change_impact_simulator_server.py], embedded and verified.

    Python dictionaries that the program iterates (the pattern table, the
    knowledge base, the two [defaultdict(int)] counters) are association
    lists in insertion order; dictionaries used as records are Rocq records
    whose optional keys are [option] fields, read with the default the
    source passes to [.get].  Strings are Python strings in UTF-8, on
    which [in] is the substring test on bytes; [str.lower()] is a
    parameter of the development; the system clock is an explicit reading
    handed to each operation that consults it. *)

From Stdlib Require Import String Ascii List ZArith Lia Bool Arith PeanoNat.
From Stdlib Require Import DecimalString.
Import ListNotations.
Local Open Scope string_scope.
Local Open Scope nat_scope.
Local Open Scope list_scope.

(** ** Python primitives *)

Module Py.

(** [d.get(k, default)] on an optional record field. *)
Definition get_or {A : Type} (o : option A) (dflt : A) : A :=
  match o with
  | Some v => v
  | None => dflt
  end.

(** Lowercasing of the ASCII letters, every other byte kept: what
    [str.lower()] does to a string of ASCII characters. *)
Definition lower_ascii (c : ascii) : ascii :=
  let n := nat_of_ascii c in
  if (65 <=? n) && (n <=? 90) then ascii_of_nat (n + 32) else c.

Fixpoint ascii_lower (s : string) : string :=
  match s with
  | EmptyString => EmptyString
  | String c rest => String (lower_ascii c) (ascii_lower rest)
  end.

(** The string holds ASCII characters only. *)
Fixpoint is_ascii (s : string) : bool :=
  match s with
  | EmptyString => true
  | String c rest => (nat_of_ascii c <? 128) && is_ascii rest
  end.

(** [sub in s] for strings: [sub] occurs in [s] as a contiguous run. *)
Fixpoint contains (sub s : string) : bool :=
  if String.prefix sub s then true
  else match s with
       | EmptyString => false
       | String _ rest => contains sub rest
       end.

(** [x in xs] for a list of strings. *)
Definition str_in (x : string) (xs : list string) : bool :=
  existsb (String.eqb x) xs.

(** [f"{n}"] for integers. *)
Definition str_of_nat (n : nat) : string :=
  NilEmpty.string_of_uint (Nat.to_uint n).

Definition str_of_Z (z : Z) : string :=
  NilEmpty.string_of_int (Z.to_int z).

(** A mapping whose entries the core never looks into (resource limits,
    health-check probes, risk-definition attributes). *)
Definition mapping := list (string * string).

(** [not m] for an optional mapping: absent and empty are both falsy. *)
Definition falsy (m : option mapping) : bool :=
  match m with
  | Some (_ :: _) => false
  | _ => true
  end.

(** Insertion-ordered dictionaries with string keys. *)
Definition dict (V : Type) := list (string * V).

Fixpoint dict_get {V : Type} (d : dict V) (k : string) : option V :=
  match d with
  | [] => None
  | (k', v) :: rest => if String.eqb k k' then Some v else dict_get rest k
  end.

(** [d[k] = v]: an existing key keeps its position, a new one goes last. *)
Fixpoint dict_set {V : Type} (d : dict V) (k : string) (v : V) : dict V :=
  match d with
  | [] => [(k, v)]
  | (k', v') :: rest =>
      if String.eqb k k' then (k', v) :: rest
      else (k', v') :: dict_set rest k v
  end.

(** [defaultdict(int)]: reading a missing key stores 0 under it. *)
Definition dd_read (d : dict nat) (k : string) : nat * dict nat :=
  match dict_get d k with
  | Some n => (n, d)
  | None => (0, dict_set d k 0)
  end.

(** [d[k] += 1] on a [defaultdict(int)]. *)
Definition dd_incr (d : dict nat) (k : string) : dict nat :=
  let (n, d') := dd_read d k in dict_set d' k (n + 1).

(** The count a [defaultdict(int)] holds for [k]; 0 when never touched. *)
Definition count (d : dict nat) (k : string) : nat :=
  get_or (dict_get d k) 0.

End Py.
Import Py.

Section Core.

(** [str.lower()].  Python lowercases by the Unicode case mapping, final
    sigma and all; here it is an arbitrary function on strings, and the few
    properties below that need more of it name what they need. *)
Variable lower : string -> string.

Set Default Proof Using "Type".

(** ** Rule store *)

Record KnowledgeEntry := mkKnowledgeEntry {
  k_title : option string;
  k_content : option string
}.

Record ChangePattern := mkChangePattern {
  p_keywords : option (list string);
  p_risk_level : option string;
  p_impacts : option (list string);
  p_safe_conditions : option (list string);
  p_safeguards : option (list string);
  p_description : option string;
  p_example : option string
}.

Record Stage := mkStage {
  st_name : option string;
  st_description : option string;
  st_auto_approve : option bool;
  st_approvers : option (list string);
  st_required_for : option (list string)
}.

Record Workflow := mkWorkflow {
  stages : option (list Stage)
}.

Record WorkflowConfig := mkWorkflowConfig {
  approval_workflow : option Workflow
}.

(** A reading of the system clock, in the two renderings the program
    prints: [.isoformat()] and [.strftime('%Y%m%d%H%M%S')]. *)
Record Clock := mkClock {
  isoformat : string;
  compact : string
}.

(** A [datetime]: a clock reading, naive or carrying a time zone. *)
Record datetime := mkDatetime {
  reading : Clock;
  aware : bool
}.

(** [datetime.utcnow()] is naive, [datetime.now(UTC)] is aware. *)
Definition utcnow (now : Clock) : datetime := mkDatetime now false.

Definition now_UTC (now : Clock) : datetime := mkDatetime now true.

Inductive exception :=
| TypeError.

Inductive result (A : Type) :=
| Ok (a : A)
| Raise (e : exception).

Arguments Ok {A} a.
Arguments Raise {A} e.

(** The interval from one reading to a later one. *)
Definition timedelta := (Clock * Clock)%type.

(** [a - b] on datetimes; a naive and an aware operand raise TypeError. *)
Definition datetime_sub (a b : datetime) : result timedelta :=
  if Bool.eqb (aware a) (aware b) then Ok (reading b, reading a)
  else Raise TypeError.

(** ** Analysis records *)

(** The dictionary [analyze_change] returns and the review and approval
    tools accept; a caller may omit any key. *)
Record Analysis := mkAnalysis {
  a_timestamp : option string;
  a_change_description : option string;
  a_matched_pattern : option string;
  a_risk_level : option string;
  a_impact : option (list string);
  a_safe_conditions : option (list string);
  a_safeguards : option (list string);
  a_risk_definition : option mapping;
  a_requires_manual_review : option bool;
  a_message : option string;
  a_recommendation : option string
}.

(** ** MetricsCollector *)

Record HistoryEntry := mkHistoryEntry {
  h_timestamp : option string;
  h_risk_level : option string;
  h_pattern : option string;
  h_requires_review : option bool
}.

Record MetricsCollector := mkMetrics {
  analyses : list HistoryEntry;
  risk_distribution : dict nat;
  pattern_usage : dict nat;
  start_time : datetime
}.

Definition MetricsCollector_init (now : Clock) : MetricsCollector :=
  mkMetrics [] [] [] (now_UTC now).

Definition record_analysis (m : MetricsCollector) (analysis : Analysis)
  : MetricsCollector :=
  let analyses' :=
    analyses m ++ [mkHistoryEntry (a_timestamp analysis)
                                  (a_risk_level analysis)
                                  (a_matched_pattern analysis)
                                  (a_requires_manual_review analysis)] in
  let risk := get_or (a_risk_level analysis) "UNKNOWN" in
  let risk_distribution' := dd_incr (risk_distribution m) risk in
  let pattern_usage' :=
    match a_matched_pattern analysis with
    | Some pattern =>
        if String.eqb pattern "" then pattern_usage m
        else dd_incr (pattern_usage m) pattern
    | None => pattern_usage m
    end in
  mkMetrics analyses' risk_distribution' pattern_usage' (start_time m).

(** [sorted(items, key=count, reverse=True)]: stable, so equal counts keep
    their insertion order. *)
Fixpoint insert_desc (x : string * nat) (l : list (string * nat))
  : list (string * nat) :=
  match l with
  | [] => [x]
  | y :: rest =>
      if snd y <=? snd x then x :: y :: rest else y :: insert_desc x rest
  end.

Definition sorted_desc (l : list (string * nat)) : list (string * nat) :=
  fold_right insert_desc [] l.

(** [l[-n:]]. *)
Definition last_n {A : Type} (n : nat) (l : list A) : list A :=
  skipn (length l - n) l.

(** The statistics report.  [uptime] is the interval whose
    [total_seconds()] the source reports, and [high_risk_ratio] the pair
    [(high_risk_count, max(total, 1))] whose quotient it scales to a
    percentage and rounds to two decimals; both are floats in the source. *)
Record Statistics := mkStatistics {
  total_analyses : nat;
  uptime : timedelta;
  high_risk_ratio : nat * nat;
  stat_risk_distribution : dict nat;
  top_patterns : list (string * nat);
  recent_analyses : list HistoryEntry
}.

(** Reading [risk_distribution["HIGH"]] and [["CRITICAL"]] comes first and
    stores the keys it misses; the report is built after that, and building
    it subtracts [start_time] from [datetime.utcnow()]. *)
Definition get_statistics (now : Clock) (m : MetricsCollector)
  : result Statistics * MetricsCollector :=
  let total := List.length (analyses m) in
  let (high, rd1) := dd_read (risk_distribution m) "HIGH" in
  let (critical, rd2) := dd_read rd1 "CRITICAL" in
  let high_risk_count := high + critical in
  let m' := mkMetrics (analyses m) rd2 (pattern_usage m) (start_time m) in
  match datetime_sub (utcnow now) (start_time m) with
  | Raise e => (Raise e, m')
  | Ok uptime =>
      (Ok (mkStatistics total uptime
                        (high_risk_count, Nat.max total 1)
                        rd2
                        (firstn 5 (sorted_desc (pattern_usage m)))
                        (last_n 10 (analyses m))),
       m')
  end.

(** ** ApprovalWorkflowEngine *)

Record RequiredApproval := mkRequiredApproval {
  ra_stage : option string;
  ra_description : string;
  ra_auto_approve : bool;
  ra_approvers : list string
}.

Definition configured_stages (wf : WorkflowConfig) : list Stage :=
  match approval_workflow wf with
  | Some workflow => get_or (stages workflow) []
  | None => []
  end.

Definition approval_of (stage : Stage) : RequiredApproval :=
  mkRequiredApproval (st_name stage)
                     (get_or (st_description stage) "")
                     (get_or (st_auto_approve stage) false)
                     (get_or (st_approvers stage) []).

(** The [for stage in stages] loop, [required] being the list built so far. *)
Fixpoint required_loop (risk_level : string) (todo : list Stage)
                       (required : list RequiredApproval)
  : list RequiredApproval :=
  match todo with
  | [] => required
  | stage :: rest =>
      let required_for := get_or (st_required_for stage) [] in
      if str_in risk_level required_for
      then required_loop risk_level rest (required ++ [approval_of stage])
      else required_loop risk_level rest required
  end.

Definition get_required_approvals (wf : WorkflowConfig) (risk_level : string)
  : list RequiredApproval :=
  required_loop risk_level (configured_stages wf) [].

Definition estimate_approval_time (required : list RequiredApproval)
  : string :=
  let hours := List.length required * 2 in
  if hours <=? 4 then "Same day"
  else if hours <=? 24 then "Within 24 hours"
  else String.append (str_of_nat (hours / 24)) " business days".

Inductive ApprovalChain :=
| ApprovalNotRequired (reason : string)
| ApprovalRequired (risk_level : string)
                   (change_description : option string)
                   (approval_stages : list RequiredApproval)
                   (estimated_approval_time : string)
                   (workflow_id : string)
                   (status : string)
                   (note : string).

Definition requires_approval (c : ApprovalChain) : bool :=
  match c with
  | ApprovalNotRequired _ => false
  | ApprovalRequired _ _ _ _ _ _ _ => true
  end.

Definition approval_stages_of (c : ApprovalChain)
  : option (list RequiredApproval) :=
  match c with
  | ApprovalNotRequired _ => None
  | ApprovalRequired _ _ l _ _ _ _ => Some l
  end.

Definition estimated_time_of (c : ApprovalChain) : option string :=
  match c with
  | ApprovalNotRequired _ => None
  | ApprovalRequired _ _ _ t _ _ _ => Some t
  end.

Definition create_approval_chain (now : Clock) (wf : WorkflowConfig)
                                 (analysis : Analysis) : ApprovalChain :=
  let risk_level := get_or (a_risk_level analysis) "UNKNOWN" in
  let required_approvals := get_required_approvals wf risk_level in
  match required_approvals with
  | [] => ApprovalNotRequired "Risk level does not require approval workflow"
  | _ :: _ =>
      ApprovalRequired risk_level
        (a_change_description analysis)
        required_approvals
        (estimate_approval_time required_approvals)
        (String.append "WF-" (compact now))
        "PENDING_APPROVAL"
        "This is an advisory workflow. No automatic execution will occur."
  end.

(** ** CICDValidator *)

Record Resources := mkResources {
  limits : option mapping
}.

Record DeploymentConfig := mkDeploymentConfig {
  replicas : option Z;
  resources : option Resources;
  healthCheck : option mapping;
  environment : option string
}.

Record Finding := mkFinding {
  f_severity : string;
  f_field : string;
  f_message : string;
  f_recommendation : string
}.

Definition low_replicas_issue (replicas : Z) : Finding :=
  mkFinding "HIGH" "replicas"
    (String.append "Replica count ("
       (String.append (str_of_Z replicas)
          ") is below recommended minimum of 2"))
    "Increase replicas to at least 2 for high availability".

Definition suboptimal_replicas_warning (replicas : Z) : Finding :=
  mkFinding "MEDIUM" "replicas"
    (String.append "Replica count ("
       (String.append (str_of_Z replicas)
          ") is below optimal count of 3"))
    "Consider increasing to 3 replicas for better fault tolerance".

Definition no_limits_warning : Finding :=
  mkFinding "MEDIUM" "resources.limits"
    "No resource limits defined"
    "Define CPU and memory limits to prevent resource exhaustion".

Definition no_health_check_issue : Finding :=
  mkFinding "MEDIUM" "healthCheck"
    "No health check configured"
    "Add liveness and readiness probes".

Definition production_issue : Finding :=
  mkFinding "CRITICAL" "environment"
    "Production deployment has blocking issues"
    "Resolve all HIGH severity issues before production deployment".

(** The state of [(issues, warnings)] when the environment check is
    reached: the replica, resource-limit and health-check rules have run. *)
Definition findings_before_environment (config : DeploymentConfig)
  : list Finding * list Finding :=
  let issues := [] in
  let warnings := [] in
  let replicas := get_or (replicas config) 0%Z in
  let '(issues, warnings) :=
    if (replicas <? 2)%Z
    then (issues ++ [low_replicas_issue replicas], warnings)
    else if (replicas <? 3)%Z
    then (issues, warnings ++ [suboptimal_replicas_warning replicas])
    else (issues, warnings) in
  let limits :=
    match resources config with
    | Some r => limits r
    | None => None
    end in
  let warnings :=
    if falsy limits then warnings ++ [no_limits_warning] else warnings in
  let issues :=
    if falsy (healthCheck config) then issues ++ [no_health_check_issue]
    else issues in
  (issues, warnings).

Record Summary := mkSummary {
  total_issues : nat;
  total_warnings : nat;
  blocking_issues : nat
}.

Record ValidationResult := mkValidationResult {
  valid : bool;
  v_environment : string;
  issues : list Finding;
  warnings : list Finding;
  summary : Summary;
  recommendation : string
}.

Definition validate_deployment_config (config : DeploymentConfig)
  : ValidationResult :=
  let '(issues, warnings) := findings_before_environment config in
  let environment := get_or (environment config) "unknown" in
  let issues :=
    if String.eqb environment "production" && (0 <? List.length issues)
    then issues ++ [production_issue]
    else issues in
  mkValidationResult
    (List.length issues =? 0)
    environment
    issues
    warnings
    (mkSummary
       (List.length issues)
       (List.length warnings)
       (List.length
          (filter (fun i => str_in (f_severity i) ["HIGH"; "CRITICAL"])
                  issues)))
    (if 0 <? List.length issues then "BLOCK DEPLOYMENT"
     else if 0 <? List.length warnings then "PROCEED WITH CAUTION"
     else "APPROVED").

Record StageRequirements := mkStageRequirements {
  min_replicas : Z;
  require_health_check : bool
}.

Definition stage_configs : dict StageRequirements :=
  [ ("dev", mkStageRequirements 1 false);
    ("staging", mkStageRequirements 2 true);
    ("production", mkStageRequirements 3 true) ].

(** [stage_configs["production"]]. *)
Definition production_requirements : StageRequirements :=
  Eval cbv in get_or (dict_get stage_configs "production")
                     (mkStageRequirements 3 true).

Record StageIssue := mkStageIssue {
  si_severity : string;
  si_message : string
}.

Record StageValidation := mkStageValidation {
  sv_stage : string;
  sv_valid : bool;
  sv_issues : list StageIssue
}.

Definition replicas_issue (stage : string) (req : StageRequirements)
  : StageIssue :=
  mkStageIssue "HIGH"
    (String.append stage
       (String.append " requires at least "
          (String.append (str_of_Z (min_replicas req)) " replicas"))).

Definition health_check_issue (stage : string) : StageIssue :=
  mkStageIssue "HIGH"
    (String.append stage " requires health check configuration").

Definition stage_requirements_for (stage : string) : StageRequirements :=
  get_or (dict_get stage_configs (lower stage)) production_requirements.

Definition validate_pipeline_stage (stage : string)
                                   (config : DeploymentConfig)
  : StageValidation :=
  let stage_requirements := stage_requirements_for stage in
  let issues := [] in
  let replicas := get_or (replicas config) 0%Z in
  let issues :=
    if (replicas <? min_replicas stage_requirements)%Z
    then issues ++ [replicas_issue stage stage_requirements]
    else issues in
  let issues :=
    if require_health_check stage_requirements
       && falsy (healthCheck config)
    then issues ++ [health_check_issue stage]
    else issues in
  mkStageValidation stage (List.length issues =? 0) issues.

(** ** ChangeImpactSimulatorServer *)

Record Server := mkServer {
  knowledge_base : dict (list KnowledgeEntry);
  change_patterns : dict ChangePattern;
  risk_definitions : dict mapping;
  workflows : WorkflowConfig;
  metrics : MetricsCollector
}.

Definition with_metrics (s : Server) (m : MetricsCollector) : Server :=
  mkServer (knowledge_base s) (change_patterns s) (risk_definitions s)
           (workflows s) m.

Record SearchHit := mkSearchHit {
  hit_category : string;
  hit_title : option string;
  hit_content : option string
}.

Definition entry_hits (query : string) (item : KnowledgeEntry) : bool :=
  let title := lower (get_or (k_title item) "") in
  let content := lower (get_or (k_content item) "") in
  contains query title || contains query content.

Definition search_knowledge (s : Server) (query : string) : list SearchHit :=
  let query := lower query in
  flat_map
    (fun '(category, items) =>
       map (fun item => mkSearchHit category (k_title item) (k_content item))
           (filter (entry_hits query) items))
    (knowledge_base s).

(** [any(k.lower() in text for k in keywords)]. *)
Definition any_keyword (text : string) (pattern : ChangePattern) : bool :=
  let keywords := get_or (p_keywords pattern) [] in
  existsb (fun k => contains (lower k) text) keywords.

(** The [for name, pattern in self.change_patterns.items()] loop with its
    [break]. *)
Fixpoint find_pattern (text : string) (patterns : dict ChangePattern)
  : option (string * ChangePattern) :=
  match patterns with
  | [] => None
  | (name, pattern) :: rest =>
      if any_keyword text pattern then Some (name, pattern)
      else find_pattern text rest
  end.

Definition unrecognized : Analysis :=
  mkAnalysis None None None (Some "UNKNOWN") None None None None None
             (Some "Unrecognized change pattern")
             (Some "Manual review required").

Definition analyze_change (now : Clock) (s : Server)
                          (change_description : string)
  : Analysis * Server :=
  let text := lower change_description in
  match find_pattern text (change_patterns s) with
  | None => (unrecognized, s)
  | Some (name, matched_pattern) =>
      let risk_level := get_or (p_risk_level matched_pattern) "MEDIUM" in
      let risk_def := get_or (dict_get (risk_definitions s) risk_level) [] in
      let analysis :=
        mkAnalysis
          (Some (isoformat now))
          (Some change_description)
          (Some name)
          (Some risk_level)
          (Some (get_or (p_impacts matched_pattern) []))
          (Some (get_or (p_safe_conditions matched_pattern) []))
          (Some (get_or (p_safeguards matched_pattern) []))
          (Some risk_def)
          (Some (str_in risk_level ["HIGH"; "CRITICAL"]))
          None None in
      (analysis, with_metrics s (record_analysis (metrics s) analysis))
  end.

Inductive ReviewTask :=
| NoReviewTask (reason : string)
| ReviewTaskCreated (task_type : string)
                    (priority : string)
                    (timestamp : string)
                    (change_description : option string)
                    (risk_level : string)
                    (note : string).

Definition task_created (t : ReviewTask) : bool :=
  match t with
  | NoReviewTask _ => false
  | ReviewTaskCreated _ _ _ _ _ _ => true
  end.

Definition priority_of (t : ReviewTask) : option string :=
  match t with
  | NoReviewTask _ => None
  | ReviewTaskCreated _ p _ _ _ _ => Some p
  end.

(** The bytes the source holds between "only" and "no execution". *)
Definition advisory_note : string :=
  String.append "Advisory only "
    (String.append
       (string_of_list_ascii
          (map ascii_of_nat [195; 162; 226; 130; 172; 226; 128; 157]))
       " no execution, no automation").

Definition create_review_task (now : Clock) (analysis : Analysis)
  : ReviewTask :=
  let risk := get_or (a_risk_level analysis) "UNKNOWN" in
  if negb (str_in risk ["HIGH"; "CRITICAL"])
  then NoReviewTask "Risk level does not require manual review"
  else ReviewTaskCreated
         "MANUAL_REVIEW_REQUIRED"
         (if String.eqb risk "CRITICAL" then "HIGH" else "MEDIUM")
         (isoformat now)
         (a_change_description analysis)
         risk
         advisory_note.

Record SupportedChange := mkSupportedChange {
  sc_name : string;
  sc_description : string;
  sc_risk_level : string;
  sc_example : string
}.

Definition list_supported_changes (s : Server) : list SupportedChange :=
  map (fun '(name, p) =>
         mkSupportedChange name
                           (get_or (p_description p) "")
                           (get_or (p_risk_level p) "MEDIUM")
                           (get_or (p_example p) ""))
      (change_patterns s).

(** ** Tool dispatch *)

Inductive ToolCall :=
| call_search_knowledge (query : string)
| call_analyze_change (change_description : string)
| call_create_review_task (analysis : Analysis)
| call_list_supported_changes
| call_get_analysis_statistics
| call_create_approval_workflow (analysis : Analysis)
| call_validate_deployment_config (config : DeploymentConfig)
| call_validate_pipeline_stage (stage : string) (config : DeploymentConfig).

Inductive ToolResult :=
| res_search (hits : list SearchHit)
| res_analysis (analysis : Analysis)
| res_review_task (task : ReviewTask)
| res_supported (changes : list SupportedChange)
| res_statistics (stats : result Statistics)
| res_approval (chain : ApprovalChain)
| res_validation (result : ValidationResult)
| res_stage_validation (result : StageValidation).

Definition call_tool (now : Clock) (s : Server) (c : ToolCall)
  : ToolResult * Server :=
  match c with
  | call_search_knowledge query =>
      (res_search (search_knowledge s query), s)
  | call_analyze_change change_description =>
      let (analysis, s') := analyze_change now s change_description in
      (res_analysis analysis, s')
  | call_create_review_task analysis =>
      (res_review_task (create_review_task now analysis), s)
  | call_list_supported_changes =>
      (res_supported (list_supported_changes s), s)
  | call_get_analysis_statistics =>
      let (stats, m') := get_statistics now (metrics s) in
      (res_statistics stats, with_metrics s m')
  | call_create_approval_workflow analysis =>
      (res_approval (create_approval_chain now (workflows s) analysis), s)
  | call_validate_deployment_config config =>
      (res_validation (validate_deployment_config config), s)
  | call_validate_pipeline_stage stage config =>
      (res_stage_validation (validate_pipeline_stage stage config), s)
  end.

(** A process lifetime: the calls served so far, each with the clock
    reading it saw, oldest first. *)
Fixpoint serve (s : Server) (calls : list (Clock * ToolCall)) : Server :=
  match calls with
  | [] => s
  | (now, c) :: rest => serve (snd (call_tool now s c)) rest
  end.

(** ** MCP wiring *)








(** The configuration the server loads but its tools never read. *)
Record OtherConfigs := mkOtherConfigs {
  intents : mapping;
  actions : mapping;
  persona : mapping
}.

(** The object [read_resource] serialises. *)
Inductive ResourceContent :=
| content_knowledge_base (kb : dict (list KnowledgeEntry))
| content_change_patterns (patterns : dict ChangePattern)
| content_risk_definitions (defs : dict mapping)
| content_intents (m : mapping)
| content_actions (m : mapping)
| content_persona (m : mapping)
| content_workflows (wf : WorkflowConfig)
| content_statistics (stats : Statistics)
| content_empty.

(** [read_resource(uri)]: the whole [mapping] literal is built first, its
    last entry by calling [get_statistics()]; then [uri] is looked up, an
    unknown one giving the empty object. *)
Definition read_resource (now : Clock) (s : Server) (other : OtherConfigs)
                         (uri : string)
  : result ResourceContent * Server :=
  let (stats, m') := get_statistics now (metrics s) in
  let s' := with_metrics s m' in
  match stats with
  | Raise e => (Raise e, s')
  | Ok st =>
      (Ok (if String.eqb uri "config://knowledge_base"
           then content_knowledge_base (knowledge_base s)
           else if String.eqb uri "config://change_patterns"
           then content_change_patterns (change_patterns s)
           else if String.eqb uri "config://risk_definitions"
           then content_risk_definitions (risk_definitions s)
           else if String.eqb uri "config://intents"
           then content_intents (intents other)
           else if String.eqb uri "config://actions"
           then content_actions (actions other)
           else if String.eqb uri "config://persona"
           then content_persona (persona other)
           else if String.eqb uri "config://workflows"
           then content_workflows (workflows s)
           else if String.eqb uri "metrics://statistics"
           then content_statistics st
           else content_empty),
       s')
  end.

(** * Vocabulary of the properties and sample data *)

(** [d'] holds every key of [d], with a count at least as large. *)
Definition dict_le (d d' : dict nat) : Prop :=
  forall k n, dict_get d k = Some n ->
              exists n', dict_get d' k = Some n' /\ n <= n'.

Definition metrics_le (m m' : MetricsCollector) : Prop :=
  List.length (analyses m) <= List.length (analyses m')
  /\ dict_le (risk_distribution m) (risk_distribution m')
  /\ dict_le (pattern_usage m) (pattern_usage m').

(** Keyword [k] occurs in [text], case-insensitively, as a substring. *)
Definition keyword_occurs (k text : string) : Prop :=
  contains (lower k) (lower text) = true.

(** Some keyword of pattern [P] occurs in [text]. *)
Definition mentions (text : string) (P : ChangePattern) : Prop :=
  exists k, In k (get_or (p_keywords P) []) /\ keyword_occurs k text.

Definition demo_clock : Clock :=
  mkClock "2026-01-01T00:00:00" "20260101000000".

Definition demo_patterns : dict ChangePattern :=
  [ ("restart_service",
     mkChangePattern (Some ["restart"; "reboot"]) (Some "LOW")
                     None None None None None);
    ("scale_down_replicas",
     mkChangePattern (Some ["reduce replicas"; "scale down"]) (Some "HIGH")
                     (Some ["Reduced fault tolerance"]) None None None None) ].

Definition demo_server : Server :=
  mkServer [] demo_patterns [] (mkWorkflowConfig None)
           (MetricsCollector_init demo_clock).

Definition with_risk_level (a : Analysis) (r : string) : Analysis :=
  mkAnalysis (a_timestamp a) (a_change_description a) (a_matched_pattern a)
             (Some r) (a_impact a) (a_safe_conditions a) (a_safeguards a)
             (a_risk_definition a) (a_requires_manual_review a)
             (a_message a) (a_recommendation a).

(** Stage [stage] lists [risk] in its [required_for]. *)
Definition requires (risk : string) (stage : Stage) : bool :=
  str_in risk (get_or (st_required_for stage) []).

(** The estimate in the wording of the specification. *)
Definition estimate_as_specified (n : nat) : string :=
  let hours := 2 * n in
  if hours <=? 4 then "same day"
  else if hours <=? 24 then "within 24 hours"
  else String.append (str_of_nat (hours / 24)) " business days".

Definition demo_workflows : WorkflowConfig :=
  mkWorkflowConfig
    (Some (mkWorkflow
       (Some [ mkStage (Some "peer_review") (Some "Peer review") (Some true)
                       (Some ["dev-team"]) (Some ["MEDIUM"; "HIGH"; "CRITICAL"]);
               mkStage (Some "security_review") None None None
                       (Some ["CRITICAL"]);
               mkStage (Some "sre_approval") (Some "SRE sign-off") None
                       (Some ["sre-oncall"]) (Some ["HIGH"; "CRITICAL"]) ]))).

Definition demo_high_analysis : Analysis :=
  mkAnalysis None (Some "Reduce replicas from 3 to 1")
             (Some "scale_down_replicas") (Some "HIGH")
             None None None None (Some true) None None.

(** Finding [x] is about configuration field [f]. *)
Definition on_field (f : string) (x : Finding) : bool :=
  String.eqb (f_field x) f.

(** The three calls the specification lists as read-only. *)
Definition read_only (c : ToolCall) : bool :=
  match c with
  | call_search_knowledge _
  | call_list_supported_changes
  | call_validate_deployment_config _ => true
  | _ => false
  end.

Definition demo_config (n : Z) (env : string) : DeploymentConfig :=
  mkDeploymentConfig (Some n)
                     (Some (mkResources (Some [("cpu", "500m")])))
                     (Some [("path", "/healthz")])
                     (Some env).

Definition demo_knowledge : dict (list KnowledgeEntry) :=
  [ ("scaling",
     [ mkKnowledgeEntry (Some "Replica Counts")
                        (Some "Keep at least two replicas per service");
       mkKnowledgeEntry (Some "Autoscaling") None ]) ].

(** The sum of the counts a counter holds. *)
Definition dict_total (d : dict nat) : nat :=
  fold_right (fun kv acc => snd kv + acc) 0 d.

(** A history entry that names a pattern. *)
Definition names_pattern (h : HistoryEntry) : bool :=
  match h_pattern h with
  | Some p => negb (String.eqb p "")
  | None => false
  end.

(** The risk levels the configured patterns can produce. *)
Definition configured_risk_levels (patterns : dict ChangePattern)
  : list string :=
  map (fun q => get_or (p_risk_level (snd q)) "MEDIUM") patterns.

(** The [limits] the validator reads: [config.get("resources", {})] then
    [.get("limits", {})]. *)
Definition limits_of (config : DeploymentConfig) : option mapping :=
  match resources config with
  | Some r => limits r
  | None => None
  end.

(** The hit an entry of the knowledge base gives under its category. *)
Definition hit_of (category : string) (item : KnowledgeEntry) : SearchHit :=
  mkSearchHit category (k_title item) (k_content item).


(** The counters account for the history: every entry is counted under one
    risk level, and every entry that names a pattern under one pattern. *)
Definition tallied (m : MetricsCollector) : Prop :=
  dict_total (risk_distribution m) = List.length (analyses m)
  /\ dict_total (pattern_usage m)
     = List.length (filter names_pattern (analyses m)).

(** The calls that reach [analyze_change]. *)
Definition is_analysis_call (c : ToolCall) : bool :=
  match c with
  | call_analyze_change _ => true
  | _ => false
  end.

(** The keys of the two counters come from the rule store: a risk level is
    HIGH, CRITICAL or one the patterns can produce, a pattern name is a
    nonempty key of the pattern table. *)
Definition keyed (patterns : dict ChangePattern) (m : MetricsCollector)
  : Prop :=
  (forall k, dict_get (risk_distribution m) k <> None ->
             k = "HIGH" \/ k = "CRITICAL"
             \/ In k (configured_risk_levels patterns))
  /\ (forall k, dict_get (pattern_usage m) k <> None ->
                k <> "" /\ In k (map fst patterns)).

(** What is known of [str.lower()]: on a string of ASCII characters it is
    the ASCII lowercasing; lowercasing twice is lowercasing once; and only
    the empty string lowercases to the empty string. *)
Definition lower_agrees_on_ascii : Prop :=
  forall s, is_ascii s = true -> lower s = ascii_lower s.

Definition lower_idempotent : Prop :=
  forall s, lower (lower s) = lower s.

Definition lower_keeps_nonempty : Prop :=
  forall s, lower s = "" -> s = "".

(** * Properties *)

(** ** Dictionaries and counters *)

Section DictFacts.
Context {V : Type}.
Implicit Types (d : dict V) (k : string) (v : V).

Lemma dict_get_set_same d k v : dict_get (dict_set d k v) k = Some v.
Proof.
  induction d as [| [k' v'] rest IH]; simpl.
  - now rewrite String.eqb_refl.
  - destruct (String.eqb k k') eqn:E; simpl; rewrite E; auto.
Qed.

Lemma dict_get_set_other d k k' v :
  k <> k' -> dict_get (dict_set d k v) k' = dict_get d k'.
Proof.
  intros Hne. induction d as [| [k0 v0] rest IH]; simpl.
  - destruct (String.eqb k' k) eqn:E; [| reflexivity].
    apply String.eqb_eq in E. congruence.
  - destruct (String.eqb k k0) eqn:E; simpl.
    + apply String.eqb_eq in E. subst k0.
      destruct (String.eqb k' k) eqn:E'; [| reflexivity].
      apply String.eqb_eq in E'. congruence.
    + now rewrite IH.
Qed.
End DictFacts.

Lemma dict_le_refl d : dict_le d d.
Proof. intros k n H. exists n. auto. Qed.

Lemma dict_le_trans d1 d2 d3 : dict_le d1 d2 -> dict_le d2 d3 -> dict_le d1 d3.
Proof.
  intros H12 H23 k n H.
  destruct (H12 k n H) as (n2 & H2 & L2).
  destruct (H23 k n2 H2) as (n3 & H3 & L3).
  exists n3. split; [assumption | lia].
Qed.

Lemma dict_le_count d d' k : dict_le d d' -> count d k <= count d' k.
Proof.
  intros H. unfold count. destruct (dict_get d k) as [n |] eqn:E; simpl.
  - destruct (H k n E) as (n' & -> & L). exact L.
  - lia.
Qed.

Lemma dict_le_set d k v :
  (forall n, dict_get d k = Some n -> n <= v) -> dict_le d (dict_set d k v).
Proof.
  intros Hv k' n H. destruct (String.eqb_spec k k') as [<- | Hne].
  - exists v. split; [apply dict_get_set_same | auto].
  - exists n. split; [| lia]. now rewrite dict_get_set_other.
Qed.

Lemma dd_read_le d k : dict_le d (snd (dd_read d k)).
Proof.
  unfold dd_read. destruct (dict_get d k) eqn:E; simpl.
  - apply dict_le_refl.
  - apply dict_le_set. intros n H. congruence.
Qed.

Lemma dd_read_count d k k' : count (snd (dd_read d k)) k' = count d k'.
Proof.
  unfold dd_read. destruct (dict_get d k) eqn:E; simpl; [reflexivity |].
  unfold count. destruct (String.eqb_spec k k') as [<- | Hne].
  - now rewrite dict_get_set_same, E.
  - now rewrite dict_get_set_other.
Qed.

Lemma dd_read_value d k : fst (dd_read d k) = count d k.
Proof. unfold dd_read, count. now destruct (dict_get d k). Qed.

Lemma count_dd_incr_same d k : count (dd_incr d k) k = count d k + 1.
Proof.
  unfold dd_incr. pose proof (dd_read_value d k) as Hv.
  destruct (dd_read d k) as [n d']. simpl in Hv. subst n.
  unfold count at 1. now rewrite dict_get_set_same.
Qed.

Lemma count_dd_incr_other d k k' :
  k <> k' -> count (dd_incr d k) k' = count d k'.
Proof.
  intros Hne. unfold dd_incr. pose proof (dd_read_count d k k') as Hc.
  destruct (dd_read d k) as [n d']. simpl in Hc.
  unfold count at 1. rewrite dict_get_set_other by assumption. exact Hc.
Qed.

Lemma dd_incr_le d k : dict_le d (dd_incr d k).
Proof.
  unfold dd_incr. pose proof (dd_read_le d k) as Hle.
  pose proof (dd_read_value d k) as Hv.
  pose proof (dd_read_count d k k) as Hc.
  destruct (dd_read d k) as [n d']. simpl in *.
  eapply dict_le_trans; [exact Hle |].
  apply dict_le_set. intros m Hm.
  assert (count d' k = m) by (unfold count; now rewrite Hm). lia.
Qed.

(** ** Metrics only grow *)

Lemma metrics_le_refl m : metrics_le m m.
Proof. repeat split; auto using dict_le_refl. Qed.

Lemma metrics_le_trans m1 m2 m3 :
  metrics_le m1 m2 -> metrics_le m2 m3 -> metrics_le m1 m3.
Proof.
  intros (A & B & C) (A' & B' & C').
  repeat split; [lia | eapply dict_le_trans; eauto ..].
Qed.

Lemma record_analysis_le m a : metrics_le m (record_analysis m a).
Proof.
  unfold record_analysis. repeat split; simpl.
  - rewrite length_app. simpl. lia.
  - apply dd_incr_le.
  - destruct (a_matched_pattern a) as [p |]; [| apply dict_le_refl].
    destruct (String.eqb p ""); [apply dict_le_refl | apply dd_incr_le].
Qed.

Lemma get_statistics_state now m :
  snd (get_statistics now m)
  = mkMetrics (analyses m)
              (snd (dd_read (snd (dd_read (risk_distribution m) "HIGH"))
                            "CRITICAL"))
              (pattern_usage m) (start_time m).
Proof.
  unfold get_statistics.
  destruct (dd_read (risk_distribution m) "HIGH") as [high rd1]. cbn [snd].
  destruct (dd_read rd1 "CRITICAL") as [critical rd2].
  destruct (datetime_sub (utcnow now) (start_time m)); reflexivity.
Qed.

Lemma get_statistics_le now m : metrics_le m (snd (get_statistics now m)).
Proof.
  rewrite get_statistics_state. repeat split; simpl.
  - lia.
  - eapply dict_le_trans; apply dd_read_le.
  - apply dict_le_refl.
Qed.

Lemma analyze_change_le now s d :
  metrics_le (metrics s) (metrics (snd (analyze_change now s d))).
Proof.
  unfold analyze_change.
  destruct (find_pattern (lower d) (change_patterns s)) as [[name P] |]; simpl.
  - apply record_analysis_le.
  - apply metrics_le_refl.
Qed.

Lemma call_tool_le now s c :
  metrics_le (metrics s) (metrics (snd (call_tool now s c))).
Proof.
  destruct c; simpl; try apply metrics_le_refl.
  - pose proof (analyze_change_le now s change_description) as H.
    destruct (analyze_change now s change_description). exact H.
  - pose proof (get_statistics_le now (metrics s)) as H.
    destruct (get_statistics now (metrics s)). exact H.
Qed.

Lemma serve_le calls : forall s, metrics_le (metrics s) (metrics (serve s calls)).
Proof.
  induction calls as [| [now c] rest IH]; intros s; simpl.
  - apply metrics_le_refl.
  - eapply metrics_le_trans; [apply call_tool_le | apply IH].
Qed.

(** What a report shows, when one is returned. *)
Lemma get_statistics_report now m st k :
  fst (get_statistics now m) = Ok st ->
  total_analyses st = List.length (analyses m)
  /\ count (stat_risk_distribution st) k = count (risk_distribution m) k.
Proof.
  unfold get_statistics.
  pose proof (dd_read_count (risk_distribution m) "HIGH" k) as H1.
  destruct (dd_read (risk_distribution m) "HIGH") as [high rd1].
  pose proof (dd_read_count rd1 "CRITICAL" k) as H2.
  destruct (dd_read rd1 "CRITICAL") as [critical rd2].
  destruct (datetime_sub (utcnow now) (start_time m)); [| discriminate].
  intros [= <-]. simpl in *. split; congruence.
Qed.

(** A collector started by [MetricsCollector_init] holds an aware start
    time, and keeps it. *)
Lemma record_analysis_start_time m a :
  start_time (record_analysis m a) = start_time m.
Proof. reflexivity. Qed.

Lemma call_tool_start_time now s c :
  start_time (metrics (snd (call_tool now s c))) = start_time (metrics s).
Proof.
  destruct c; simpl; try reflexivity.
  - unfold analyze_change.
    now destruct (find_pattern (lower change_description) (change_patterns s))
      as [[name P] |].
  - pose proof (get_statistics_state now (metrics s)) as H.
    destruct (get_statistics now (metrics s)) as [st m']. simpl in *.
    now rewrite H.
Qed.

Lemma serve_start_time calls : forall s,
  start_time (metrics (serve s calls)) = start_time (metrics s).
Proof.
  induction calls as [| [now c] rest IH]; intros s; simpl; [reflexivity |].
  now rewrite IH, call_tool_start_time.
Qed.

(** With an aware start time the subtraction in [get_statistics] mixes a
    naive and an aware datetime: the call raises, whatever was recorded. *)
Lemma get_statistics_raises now m :
  aware (start_time m) = true ->
  fst (get_statistics now m) = Raise TypeError.
Proof.
  intros H. unfold get_statistics.
  destruct (dd_read (risk_distribution m) "HIGH") as [high rd1].
  destruct (dd_read rd1 "CRITICAL") as [critical rd2].
  unfold datetime_sub. simpl. now rewrite H.
Qed.

(** X4: on a server whose collector was started by [MetricsCollector_init]
    the statistics tool raises TypeError, after any history of calls: the
    start time is aware, the reading subtracted from is naive. *)
Lemma get_analysis_statistics_raises now0 kb patterns defs wf calls now :
  let s := serve (mkServer kb patterns defs wf (MetricsCollector_init now0))
                 calls in
  fst (call_tool now s call_get_analysis_statistics)
  = res_statistics (Raise TypeError).
Proof.
  intros s. simpl.
  pose proof (get_statistics_raises now (metrics s)) as H.
  destruct (get_statistics now (metrics s)) as [st m']. simpl in *.
  rewrite H; [reflexivity |].
  subst s. now rewrite serve_start_time.
Qed.

(** ** Classifier *)

Lemma any_keyword_mentions text P :
  any_keyword (lower text) P = true <-> mentions text P.
Proof.
  unfold any_keyword, mentions, keyword_occurs. rewrite existsb_exists.
  reflexivity.
Qed.

Lemma any_keyword_not_mentions text P :
  ~ mentions text P -> any_keyword (lower text) P = false.
Proof.
  intros H. destruct (any_keyword (lower text) P) eqn:E; [| reflexivity].
  apply any_keyword_mentions in E. contradiction.
Qed.

Lemma find_pattern_none text patterns :
  (forall q, In q patterns -> ~ mentions text (snd q)) ->
  find_pattern (lower text) patterns = None.
Proof.
  induction patterns as [| [name P] rest IH]; intros H; simpl; [reflexivity |].
  rewrite (any_keyword_not_mentions text P) by (apply (H (name, P)); now left).
  apply IH. intros q Hq. apply H. now right.
Qed.

Lemma find_pattern_first text pre name P post :
  (forall q, In q pre -> ~ mentions text (snd q)) ->
  mentions text P ->
  find_pattern (lower text) (pre ++ (name, P) :: post) = Some (name, P).
Proof.
  intros Hpre HP. induction pre as [| [n0 P0] pre IH]; simpl.
  - apply any_keyword_mentions in HP. now rewrite HP.
  - rewrite (any_keyword_not_mentions text P0)
      by (apply (Hpre (n0, P0)); now left).
    apply IH. intros q Hq. apply Hpre. now right.
Qed.

(** Had an unmatched record reached the collector, it would have been
    counted: [record_analysis] files a record under its risk level, and one
    without a pattern leaves the pattern counters alone. *)
Lemma record_analysis_unrecognized m :
  count (risk_distribution (record_analysis m unrecognized)) "UNKNOWN"
  = count (risk_distribution m) "UNKNOWN" + 1
  /\ pattern_usage (record_analysis m unrecognized) = pattern_usage m.
Proof. split; [apply count_dd_incr_same | reflexivity]. Qed.

(** C1 (the code departs from the claim): when no configured pattern's
    keyword occurs in the description, [analyze_change] answers with risk
    level UNKNOWN, but it returns before the collector is called: the server
    state, and with it the UNKNOWN counter of the risk distribution, is
    exactly what it was. *)
Theorem analyze_change_unrecognized_not_recorded now s d :
  (forall q, In q (change_patterns s) -> ~ mentions d (snd q)) ->
  a_risk_level (fst (analyze_change now s d)) = Some "UNKNOWN"
  /\ snd (analyze_change now s d) = s
  /\ count (risk_distribution (metrics (snd (analyze_change now s d))))
           "UNKNOWN"
     = count (risk_distribution (metrics s)) "UNKNOWN".
Proof.
  intros H. unfold analyze_change.
  rewrite (find_pattern_none d (change_patterns s) H). simpl. auto.
Qed.

(** C2: when the pattern table reads [pre ++ (name, P) :: post], some
    keyword of [P] occurs in the description and no keyword of a pattern in
    [pre] does, [analyze_change] reports [name] as the matched pattern and
    the risk level of [P] (MEDIUM when [P] omits it). *)
Theorem analyze_change_first_match now s d pre name P post :
  change_patterns s = pre ++ (name, P) :: post ->
  (forall q, In q pre -> ~ mentions d (snd q)) ->
  mentions d P ->
  a_matched_pattern (fst (analyze_change now s d)) = Some name
  /\ a_risk_level (fst (analyze_change now s d))
     = Some (get_or (p_risk_level P) "MEDIUM")
  /\ (forall r, p_risk_level P = Some r ->
                a_risk_level (fst (analyze_change now s d)) = Some r).
Proof.
  intros Hs Hpre HP. unfold analyze_change.
  rewrite Hs, (find_pattern_first d pre name P post Hpre HP). simpl.
  repeat split. intros r ->. reflexivity.
Qed.

(** ** Review tasks *)

Lemma str_in_high_critical r :
  str_in r ["HIGH"; "CRITICAL"] = true <-> r = "HIGH" \/ r = "CRITICAL".
Proof.
  clear lower.
  unfold str_in. simpl. rewrite !orb_true_iff, !String.eqb_eq.
  intuition discriminate.
Qed.

(** C3: [create_review_task] creates a task exactly when the risk level is
    HIGH or CRITICAL; a created task has priority HIGH exactly for CRITICAL
    and MEDIUM otherwise; a record without a risk level is handled as one
    whose risk level is UNKNOWN, and no task is created for it. *)
Theorem create_review_task_decision now a :
  let risk := get_or (a_risk_level a) "UNKNOWN" in
  let t := create_review_task now a in
  (task_created t = true <-> risk = "HIGH" \/ risk = "CRITICAL")
  /\ (task_created t = true ->
      (priority_of t = Some "HIGH" <-> risk = "CRITICAL")
      /\ (risk <> "CRITICAL" -> priority_of t = Some "MEDIUM"))
  /\ (a_risk_level a = None ->
      t = create_review_task now (with_risk_level a "UNKNOWN")
      /\ task_created t = false).
Proof.
  clear lower.
  intros risk t. subst t. unfold create_review_task. fold risk.
  pose proof (str_in_high_critical risk) as Hin.
  destruct (str_in risk ["HIGH"; "CRITICAL"]) eqn:E; simpl.
  - split; [tauto |]. split.
    + intros _. destruct (String.eqb_spec risk "CRITICAL") as [-> | Hne];
        simpl; split; try tauto; try congruence.
      split; [discriminate | contradiction].
    + intros Hnone. subst risk. rewrite Hnone in E. discriminate.
  - split; [split; [discriminate | intros H; apply Hin in H; discriminate] |].
    split; [discriminate |].
    intros _. split; reflexivity.
Qed.

(** ** Metrics over a process lifetime *)

(** C10: whatever calls the server serves, the collector's counts do not
    go down: the number of recorded analyses (the reported total), the count
    of every risk level and the usage count of every pattern; and no key of
    either counter is ever dropped. *)
Theorem metrics_counts_monotonic s calls k :
  let m := metrics s in
  let m' := metrics (serve s calls) in
  List.length (analyses m) <= List.length (analyses m')
  /\ count (risk_distribution m) k <= count (risk_distribution m') k
  /\ count (pattern_usage m) k <= count (pattern_usage m') k
  /\ dict_le (risk_distribution m) (risk_distribution m')
  /\ dict_le (pattern_usage m) (pattern_usage m').
Proof.
  intros m m'. destruct (serve_le calls s) as (Hlen & Hrd & Hpu).
  fold m m' in Hlen, Hrd, Hpu.
  repeat split; auto using dict_le_count.
Qed.

(** ** Approval chains *)

Lemma str_in_In x xs : str_in x xs = true <-> In x xs.
Proof.
  unfold str_in. rewrite existsb_exists. split.
  - intros (y & Hy & E). apply String.eqb_eq in E. now subst.
  - intros H. exists x. split; [assumption | apply String.eqb_refl].
Qed.

Lemma required_loop_filter risk todo : forall acc,
  required_loop risk todo acc
  = acc ++ map approval_of (filter (requires risk) todo).
Proof.
  induction todo as [| stage rest IH]; intros acc; simpl.
  - now rewrite app_nil_r.
  - unfold requires at 1.
    destruct (str_in risk (get_or (st_required_for stage) [])); rewrite IH.
    + now rewrite <- app_assoc.
    + reflexivity.
Qed.

Lemma get_required_approvals_filter wf risk :
  get_required_approvals wf risk
  = map approval_of (filter (requires risk) (configured_stages wf)).
Proof. unfold get_required_approvals. now rewrite required_loop_filter. Qed.

Lemma filter_nil_iff {A : Type} (f : A -> bool) (l : list A) :
  filter f l = [] <-> forall x, In x l -> f x = false.
Proof.
  induction l as [| y l IH]; simpl.
  - split; [intros _ x [] | reflexivity].
  - destruct (f y) eqn:E.
    + split; [discriminate |]. intros H. specialize (H y (or_introl eq_refl)).
      congruence.
    + rewrite IH. split.
      * intros H x [<- | Hx]; auto.
      * intros H x Hx. apply H. now right.
Qed.

(** C4: [create_approval_chain] answers [requires_approval = false] exactly
    when no configured stage lists the record's risk level (UNKNOWN when
    absent) in [required_for]; otherwise [requires_approval = true] and the
    approval stages are the configured stages that list it, all of them and
    in configured order, each rendered by [approval_of]. *)
Theorem create_approval_chain_selection now wf a :
  let risk := get_or (a_risk_level a) "UNKNOWN" in
  let chain := create_approval_chain now wf a in
  (requires_approval chain = false <->
   forall st, In st (configured_stages wf) ->
              ~ In risk (get_or (st_required_for st) []))
  /\ (requires_approval chain = false
      \/ (requires_approval chain = true
          /\ approval_stages_of chain
             = Some (map approval_of
                         (filter (requires risk) (configured_stages wf))))).
Proof.
  intros risk chain. subst chain. unfold create_approval_chain. fold risk.
  rewrite get_required_approvals_filter.
  destruct (filter (requires risk) (configured_stages wf)) as [| st0 sel] eqn:E;
    simpl.
  - split; [| now left]. split; [| reflexivity]. intros _ st Hst Hin.
    pose proof (proj1 (filter_nil_iff _ _) E st Hst) as Hf.
    unfold requires in Hf. apply str_in_In in Hin. congruence.
  - split; [| right; split; reflexivity].
    split; [discriminate |]. intros Hnone. exfalso.
    assert (Hin : In st0 (filter (requires risk) (configured_stages wf)))
      by (rewrite E; now left).
    apply filter_In in Hin. destruct Hin as (Hst & Hreq).
    apply (Hnone st0 Hst). now apply str_in_In.
Qed.

(** C5 as worded fails: with two required stages (4 hours) the chain
    carries "Same day", not the specification's "same day". *)
Lemma estimate_wording_differs :
  get_required_approvals demo_workflows "HIGH" <> []
  /\ estimated_time_of
       (create_approval_chain demo_clock demo_workflows demo_high_analysis)
     = Some "Same day"
  /\ estimated_time_of
       (create_approval_chain demo_clock demo_workflows demo_high_analysis)
     <> Some (estimate_as_specified
                (List.length (get_required_approvals demo_workflows "HIGH"))).
Proof. repeat split; vm_compute; discriminate. Qed.

(** C5 (amended): for a nonempty list of [n] required stages the chain's
    estimate is computed from [hours = 2 * n]: "Same day" when [hours <= 4],
    "Within 24 hours" when [4 < hours <= 24], and otherwise the decimal of
    [hours / 24] followed by " business days". *)
Theorem create_approval_chain_estimate now wf a :
  let required :=
    get_required_approvals wf (get_or (a_risk_level a) "UNKNOWN") in
  let hours := 2 * List.length required in
  let estimate := estimated_time_of (create_approval_chain now wf a) in
  required <> [] ->
  (hours <= 4 -> estimate = Some "Same day")
  /\ (4 < hours <= 24 -> estimate = Some "Within 24 hours")
  /\ (24 < hours ->
      estimate = Some (String.append (str_of_nat (hours / 24))
                                     " business days")).
Proof.
  intros required hours estimate Hne. subst estimate.
  unfold create_approval_chain. fold required.
  destruct required as [| r0 rest] eqn:E; [contradiction |].
  unfold estimated_time_of, estimate_approval_time.
  replace (List.length (r0 :: rest) * 2) with hours by (subst hours; lia).
  destruct (Nat.leb_spec hours 4); [repeat split; intros; auto; lia |].
  destruct (Nat.leb_spec hours 24); repeat split; intros; auto; lia.
Qed.

(** ** Deployment validation *)

Lemma length_zero_iff {A : Type} (l : list A) :
  (List.length l =? 0) = true <-> l = [].
Proof. destruct l; simpl; split; intros; auto; discriminate. Qed.

Lemma length_pos_iff {A : Type} (l : list A) :
  (0 <? List.length l) = true <-> l <> [].
Proof. destruct l; simpl; split; intros; auto; try discriminate; congruence. Qed.

(** What the environment check does to the issues gathered before it. *)
Lemma validate_issues config :
  issues (validate_deployment_config config)
  = let prior := fst (findings_before_environment config) in
    if String.eqb (get_or (environment config) "unknown") "production"
       && (0 <? List.length prior)
    then prior ++ [production_issue] else prior.
Proof.
  unfold validate_deployment_config.
  destruct (findings_before_environment config) as [i w]. reflexivity.
Qed.

Lemma validate_warnings config :
  warnings (validate_deployment_config config)
  = snd (findings_before_environment config).
Proof.
  unfold validate_deployment_config.
  destruct (findings_before_environment config) as [i w]. reflexivity.
Qed.

Lemma validate_verdict config :
  let r := validate_deployment_config config in
  valid r = (List.length (issues r) =? 0)
  /\ recommendation r
     = if 0 <? List.length (issues r) then "BLOCK DEPLOYMENT"
       else if 0 <? List.length (warnings r) then "PROCEED WITH CAUTION"
       else "APPROVED".
Proof.
  unfold validate_deployment_config.
  destruct (findings_before_environment config) as [i w]. split; reflexivity.
Qed.

Lemma replica_findings_before_environment config :
  let n := get_or (replicas config) 0%Z in
  let prior := findings_before_environment config in
  filter (on_field "replicas") (fst prior)
  = (if (n <? 2)%Z then [low_replicas_issue n] else [])
  /\ filter (on_field "replicas") (snd prior)
     = (if (n <? 2)%Z then []
        else if (n <? 3)%Z then [suboptimal_replicas_warning n] else []).
Proof.
  intros n prior. subst prior. unfold findings_before_environment. fold n.
  destruct (n <? 2)%Z; [| destruct (n <? 3)%Z];
    destruct (falsy match resources config with
                    | Some r => limits r
                    | None => None
                    end);
    destruct (falsy (healthCheck config)); split; reflexivity.
Qed.

(** C6: the replica rule is exclusive.  With [n] the configured replica
    count (0 when the field is missing): below 2 the result holds exactly
    one finding on field "replicas" among its issues, of severity HIGH, and
    none among its warnings; at 2 it holds exactly one among its warnings,
    of severity MEDIUM, and none among its issues; from 3 on it holds none
    at all. *)
Theorem replica_rule config :
  let n := get_or (replicas config) 0%Z in
  let r := validate_deployment_config config in
  let about_replicas := filter (on_field "replicas") in
  ((n < 2)%Z ->
     about_replicas (issues r) = [low_replicas_issue n]
     /\ f_severity (low_replicas_issue n) = "HIGH"
     /\ about_replicas (warnings r) = [])
  /\ ((2 <= n < 3)%Z ->
     about_replicas (issues r) = []
     /\ about_replicas (warnings r) = [suboptimal_replicas_warning n]
     /\ f_severity (suboptimal_replicas_warning n) = "MEDIUM")
  /\ ((3 <= n)%Z ->
     about_replicas (issues r) = [] /\ about_replicas (warnings r) = [])
  /\ (replicas config = None ->
     n = 0%Z /\ about_replicas (issues r) = [low_replicas_issue 0]).
Proof.
  intros n r about_replicas. subst r about_replicas.
  rewrite validate_issues, validate_warnings.
  destruct (replica_findings_before_environment config) as (Hi & Hw).
  fold n in Hi, Hw. cbv zeta.
  assert (Hi' :
    filter (on_field "replicas")
      (if String.eqb (get_or (environment config) "unknown") "production"
          && (0 <? List.length (fst (findings_before_environment config)))
       then fst (findings_before_environment config) ++ [production_issue]
       else fst (findings_before_environment config))
    = if (n <? 2)%Z then [low_replicas_issue n] else []).
  { destruct (_ && _); [| exact Hi].
    rewrite filter_app, Hi. simpl. apply app_nil_r. }
  rewrite Hi', Hw.
  assert (Hnone : replicas config = None -> n = 0%Z)
    by (intros E; subst n; now rewrite E).
  destruct (Z.ltb_spec n 2); [| destruct (Z.ltb_spec n 3)];
    repeat split; intros; auto; try lia.
  - rewrite (Hnone H0). reflexivity.
  - specialize (Hnone H1). lia.
  - specialize (Hnone H1). lia.
Qed.

(** C7: in environment "production", once the earlier rules have left at
    least one issue, the result's issues are those followed by one CRITICAL
    issue and the recommendation is "BLOCK DEPLOYMENT"; in any other case
    the issues are the earlier ones unchanged.  Always, [valid] holds
    exactly when there is no issue, and the recommendation is
    "BLOCK DEPLOYMENT" with an issue, else "PROCEED WITH CAUTION" with a
    warning, else "APPROVED". *)
Theorem production_rule_and_verdict config :
  let prior := fst (findings_before_environment config) in
  let r := validate_deployment_config config in
  (environment config = Some "production" -> prior <> [] ->
     issues r = prior ++ [production_issue]
     /\ f_severity production_issue = "CRITICAL"
     /\ recommendation r = "BLOCK DEPLOYMENT")
  /\ (environment config <> Some "production" \/ prior = [] ->
     issues r = prior)
  /\ (valid r = true <-> issues r = [])
  /\ (issues r <> [] -> recommendation r = "BLOCK DEPLOYMENT")
  /\ (issues r = [] -> warnings r <> [] ->
     recommendation r = "PROCEED WITH CAUTION")
  /\ (issues r = [] -> warnings r = [] -> recommendation r = "APPROVED").
Proof.
  intros prior r.
  destruct (validate_verdict config) as (Hvalid & Hrec). fold r in Hvalid, Hrec.
  pose proof (validate_issues config) as Hiss. fold r in Hiss.
  cbv zeta in Hiss. fold prior in Hiss.
  assert (Hblock : issues r <> [] -> recommendation r = "BLOCK DEPLOYMENT").
  { intros H. apply length_pos_iff in H. now rewrite Hrec, H. }
  split; [| split; [| split; [| split; [| split]]]].
  - intros Henv Hprior. rewrite Henv in Hiss. simpl in Hiss.
    rewrite (proj2 (length_pos_iff prior) Hprior) in Hiss.
    split; [exact Hiss | split; [reflexivity |]].
    apply Hblock. rewrite Hiss. destruct prior; discriminate.
  - intros [Henv | Hprior].
    + rewrite Hiss.
      destruct (String.eqb_spec (get_or (environment config) "unknown")
                                "production") as [E | E]; [| reflexivity].
      exfalso. apply Henv. destruct (environment config) as [e |];
        simpl in E; [now subst | discriminate].
    + rewrite Hiss, Hprior. simpl. now rewrite andb_false_r.
  - rewrite Hvalid. apply length_zero_iff.
  - exact Hblock.
  - intros Hi Hw. rewrite Hrec, Hi. simpl.
    now rewrite (proj2 (length_pos_iff _) Hw).
  - intros Hi Hw. rewrite Hrec, Hi, Hw. reflexivity.
Qed.

(** ** Pipeline stages *)

Lemma lower_literal s :
  lower_agrees_on_ascii -> is_ascii s = true -> ascii_lower s = s ->
  lower s = s.
Proof. intros H Ha Hs. rewrite (H s Ha). exact Hs. Qed.

Lemma stage_requirements_production :
  lower_agrees_on_ascii ->
  stage_requirements_for "production" = mkStageRequirements 3 true.
Proof.
  intros H. unfold stage_requirements_for.
  now rewrite (lower_literal "production" H eq_refl eq_refl).
Qed.

Lemma stage_requirements_dev :
  lower_agrees_on_ascii ->
  stage_requirements_for "dev" = mkStageRequirements 1 false.
Proof.
  intros H. unfold stage_requirements_for.
  now rewrite (lower_literal "dev" H eq_refl eq_refl).
Qed.

(** C8: the requirements of a stage are those of the fixed table under the
    lowercased stage name, and those of production for every other name
    (the name "production" itself lowercasing to itself);
    the validation always yields a result, whose issues are one HIGH issue
    for a replica count below the minimum followed by one HIGH issue for a
    required but missing health check, and which is valid exactly when
    there is no issue. *)
Theorem validate_pipeline_stage_requirements stage config :
  let req := stage_requirements_for stage in
  let r := validate_pipeline_stage stage config in
  let n := get_or (replicas config) 0%Z in
  (lower stage = "dev" -> req = mkStageRequirements 1 false)
  /\ (lower stage = "staging" -> req = mkStageRequirements 2 true)
  /\ (lower stage = "production" -> req = mkStageRequirements 3 true)
  /\ (lower stage <> "dev" -> lower stage <> "staging" ->
      lower stage <> "production" ->
      req = mkStageRequirements 3 true
      /\ (lower_agrees_on_ascii -> req = stage_requirements_for "production"))
  /\ sv_issues r
     = (if (n <? min_replicas req)%Z then [replicas_issue stage req] else [])
       ++ (if require_health_check req && falsy (healthCheck config)
           then [health_check_issue stage] else [])
  /\ (forall i, In i (sv_issues r) -> si_severity i = "HIGH")
  /\ (sv_valid r = true <-> sv_issues r = []).
Proof.
  intros req r n.
  assert (Hissues :
    sv_issues r
    = (if (n <? min_replicas req)%Z then [replicas_issue stage req] else [])
      ++ (if require_health_check req && falsy (healthCheck config)
          then [health_check_issue stage] else [])).
  { subst r. unfold validate_pipeline_stage. fold req n.
    destruct (n <? min_replicas req)%Z;
      destruct (require_health_check req && falsy (healthCheck config));
      reflexivity. }
  assert (Hvalid : sv_valid r = (List.length (sv_issues r) =? 0))
    by reflexivity.
  subst req. unfold stage_requirements_for.
  repeat match goal with |- _ /\ _ => split end.
  - intros ->. reflexivity.
  - intros ->. reflexivity.
  - intros ->. reflexivity.
  - intros Hd Hs Hp. simpl.
    destruct (String.eqb_spec (lower stage) "dev"); [contradiction |].
    destruct (String.eqb_spec (lower stage) "staging"); [contradiction |].
    destruct (String.eqb_spec (lower stage) "production"); [contradiction |].
    split; [reflexivity |].
    intros Hlower.
    now rewrite (lower_literal "production" Hlower eq_refl eq_refl).
  - exact Hissues.
  - intros i Hi. rewrite Hissues in Hi. apply in_app_or in Hi.
    destruct Hi as [Hi | Hi];
      [destruct (n <? _)%Z | destruct (_ && _)];
      simpl in Hi; try contradiction; destruct Hi as [<- | []]; reflexivity.
  - rewrite Hvalid. apply length_zero_iff.
Qed.

(** ** Read-only tools *)

Lemma call_tool_read_only now s c :
  read_only c = true -> snd (call_tool now s c) = s.
Proof. destruct c; simpl; intros H; try discriminate; reflexivity. Qed.

Lemma call_tool_clock_free now now' s c :
  read_only c = true -> fst (call_tool now s c) = fst (call_tool now' s c).
Proof. destruct c; simpl; intros H; try discriminate; reflexivity. Qed.

Lemma serve_read_only calls : forall s,
  forallb (fun nc => read_only (snd nc)) calls = true -> serve s calls = s.
Proof.
  induction calls as [| [now c] rest IH]; intros s H; simpl in *.
  - reflexivity.
  - apply andb_true_iff in H. destruct H as (Hc & Hrest).
    rewrite (call_tool_read_only now s c Hc). now apply IH.
Qed.

(** C9: a call of [search_knowledge], [list_supported_changes] or
    [validate_deployment_config] leaves the server, rule store and metrics
    alike, as it found it; so does any run of such calls; and the same call
    made again, then or after such a run and at whatever time, returns the
    same result. *)
Theorem read_only_calls_repeatable now now' s c between :
  read_only c = true ->
  forallb (fun nc => read_only (snd nc)) between = true ->
  snd (call_tool now s c) = s
  /\ serve s ((now, c) :: between) = s
  /\ fst (call_tool now' (snd (call_tool now s c)) c) = fst (call_tool now s c)
  /\ fst (call_tool now' (serve s ((now, c) :: between)) c)
     = fst (call_tool now s c).
Proof.
  intros Hc Hbetween.
  assert (Hserve : serve s ((now, c) :: between) = s).
  { apply serve_read_only. simpl. now rewrite Hc. }
  rewrite Hserve, (call_tool_read_only now s c Hc).
  repeat split; apply call_tool_clock_free; assumption.
Qed.

(** ** Worked instances *)

(** * Further properties of the code *)

(** ** Strings *)

Lemma prefix_empty s : String.prefix "" s = true.
Proof. now destruct s. Qed.

Lemma contains_empty s : contains "" s = true.
Proof. destruct s; reflexivity. Qed.

Lemma contains_in_empty sub : contains sub "" = true -> sub = "".
Proof. destruct sub; [reflexivity | discriminate]. Qed.

Lemma prefix_append sub : forall s,
  String.prefix sub s = true <-> exists post, s = String.append sub post.
Proof.
  induction sub as [| a sub IH]; intros s.
  - rewrite prefix_empty. split; [intros _; now exists s | reflexivity].
  - destruct s as [| b s]; simpl.
    + split; [discriminate | intros (post & H); discriminate].
    + destruct (ascii_dec a b) as [<- | Hne].
      * rewrite IH. split; intros (post & H); exists post.
        -- now subst.
        -- now injection H.
      * split; [discriminate |]. intros (post & H). injection H as H1 H2.
        congruence.
Qed.

(** [contains] is the substring relation: that of Python's [in]. *)
Lemma contains_append sub s :
  contains sub s = true
  <-> exists pre post, s = String.append pre (String.append sub post).
Proof.
  induction s as [| c rest IH].
  - destruct sub as [| a sub]; simpl.
    + split; [intros _ | reflexivity]. now exists "", "".
    + split; [discriminate |]. intros (pre & post & H).
      destruct pre; discriminate.
  - cbn [contains]. destruct (String.prefix sub (String c rest)) eqn:E.
    + split; [intros _ | reflexivity].
      apply prefix_append in E. destruct E as (post & E). now exists "", post.
    + rewrite IH. split.
      * intros (pre & post & H). exists (String c pre), post. simpl. now subst.
      * intros (pre & post & H). destruct pre as [| c' pre]; simpl in H.
        -- assert (String.prefix sub (String c rest) = true)
             by (apply prefix_append; now exists post).
           congruence.
        -- injection H as _ H. now exists pre, post.
Qed.

(** ** The collector, call by call *)

Lemma dict_total_set d k v :
  dict_total (dict_set d k v) + count d k = dict_total d + v.
Proof.
  unfold count. induction d as [| [k' v'] rest IH]; simpl.
  - lia.
  - destruct (String.eqb k k'); simpl; lia.
Qed.

Lemma dict_total_read d k : dict_total (snd (dd_read d k)) = dict_total d.
Proof.
  unfold dd_read. destruct (dict_get d k) eqn:E; simpl; [reflexivity |].
  pose proof (dict_total_set d k 0) as H. unfold count in H.
  rewrite E in H. simpl in H. lia.
Qed.

Lemma dict_total_incr d k : dict_total (dd_incr d k) = dict_total d + 1.
Proof.
  unfold dd_incr.
  pose proof (dd_read_value d k) as Hv.
  pose proof (dd_read_count d k k) as Hc.
  pose proof (dict_total_read d k) as Ht.
  destruct (dd_read d k) as [n d']. simpl in *.
  pose proof (dict_total_set d' k (n + 1)) as H. lia.
Qed.

Lemma dict_get_incr_other d k k' :
  k <> k' -> dict_get (dd_incr d k) k' = dict_get (snd (dd_read d k)) k'.
Proof.
  intros Hne. unfold dd_incr. destruct (dd_read d k) as [n d']. simpl.
  now apply dict_get_set_other.
Qed.

Lemma dict_get_read_other d k k' :
  k <> k' -> dict_get (snd (dd_read d k)) k' = dict_get d k'.
Proof.
  intros Hne. unfold dd_read. destruct (dict_get d k); simpl; [reflexivity |].
  now apply dict_get_set_other.
Qed.

Lemma dict_get_read_same d k : dict_get (snd (dd_read d k)) k <> None.
Proof.
  unfold dd_read. destruct (dict_get d k) eqn:E; simpl.
  - congruence.
  - rewrite dict_get_set_same. discriminate.
Qed.

Lemma dd_read_present d k :
  dict_get d k <> None -> snd (dd_read d k) = d.
Proof. unfold dd_read. destruct (dict_get d k); [reflexivity | congruence]. Qed.

(** X1: [record_analysis] appends one entry to the history, raises by one
    the count of the record's risk level (UNKNOWN when the record has none)
    and no other; it raises by one the usage of the record's pattern and no
    other, and leaves the usage counter as it is when the record has no
    pattern or an empty pattern name. *)
Theorem record_analysis_counts m a k :
  let risk := get_or (a_risk_level a) "UNKNOWN" in
  let m' := record_analysis m a in
  List.length (analyses m') = List.length (analyses m) + 1
  /\ count (risk_distribution m') risk = count (risk_distribution m) risk + 1
  /\ (k <> risk ->
      count (risk_distribution m') k = count (risk_distribution m) k)
  /\ (forall p, a_matched_pattern a = Some p -> p <> "" ->
      count (pattern_usage m') p = count (pattern_usage m) p + 1
      /\ (k <> p -> count (pattern_usage m') k = count (pattern_usage m) k))
  /\ (a_matched_pattern a = None \/ a_matched_pattern a = Some "" ->
      pattern_usage m' = pattern_usage m).
Proof.
  intros risk m'. subst m'. unfold record_analysis. fold risk. simpl.
  split; [rewrite length_app; simpl; lia |].
  split; [apply count_dd_incr_same |].
  split; [intros Hk; apply count_dd_incr_other; congruence |].
  split.
  - intros p -> Hp. destruct (String.eqb_spec p ""); [contradiction |].
    split; [apply count_dd_incr_same |].
    intros Hk. apply count_dd_incr_other. congruence.
  - intros [-> | ->]; reflexivity.
Qed.

Lemma filter_snoc {A : Type} (f : A -> bool) (l : list A) (x : A) :
  filter f (l ++ [x]) = filter f l ++ (if f x then [x] else []).
Proof. rewrite filter_app. reflexivity. Qed.

Lemma record_analysis_tallied m a : tallied m -> tallied (record_analysis m a).
Proof.
  intros (Hr & Hp). unfold tallied, record_analysis. simpl. split.
  - rewrite dict_total_incr, length_app, Hr. reflexivity.
  - rewrite filter_snoc, length_app. unfold names_pattern at 2. simpl.
    destruct (a_matched_pattern a) as [p |]; simpl; [| lia].
    destruct (String.eqb p ""); simpl; [lia |].
    rewrite dict_total_incr. lia.
Qed.

Lemma get_statistics_tallied now m :
  tallied m -> tallied (snd (get_statistics now m)).
Proof.
  intros (Hr & Hp). rewrite get_statistics_state. split; simpl; [| exact Hp].
  now rewrite !dict_total_read.
Qed.

Lemma call_tool_tallied now s c :
  tallied (metrics s) -> tallied (metrics (snd (call_tool now s c))).
Proof.
  intros H. destruct c; simpl; try exact H.
  - unfold analyze_change.
    destruct (find_pattern (lower change_description) (change_patterns s))
      as [[name P] |]; simpl; [now apply record_analysis_tallied | exact H].
  - pose proof (get_statistics_tallied now (metrics s) H) as H'.
    destruct (get_statistics now (metrics s)). exact H'.
Qed.

Lemma serve_tallied calls : forall s,
  tallied (metrics s) -> tallied (metrics (serve s calls)).
Proof.
  induction calls as [| [now c] rest IH]; intros s H; simpl; [exact H |].
  apply IH. now apply call_tool_tallied.
Qed.

(** X2: on a server started fresh, after any calls, the counts of the risk
    distribution add up to the number of recorded analyses, and the usage
    counts add up to the number of recorded analyses that name a pattern. *)
Theorem counters_account_for_history now0 kb patterns defs wf calls :
  let m := metrics (serve (mkServer kb patterns defs wf
                                    (MetricsCollector_init now0)) calls) in
  dict_total (risk_distribution m) = List.length (analyses m)
  /\ dict_total (pattern_usage m)
     = List.length (filter names_pattern (analyses m))
  /\ dict_total (pattern_usage m) <= List.length (analyses m).
Proof.
  intros m.
  assert (H : tallied m) by (apply serve_tallied; split; reflexivity).
  destruct H as (Hr & Hp). split; [exact Hr |]. split; [exact Hp |].
  rewrite Hp. apply filter_length_le.
Qed.

Lemma call_tool_history now s c :
  exists tail,
    analyses (metrics (snd (call_tool now s c))) = analyses (metrics s) ++ tail
    /\ List.length tail <= (if is_analysis_call c then 1 else 0).
Proof.
  destruct c; simpl;
    try (exists []; rewrite app_nil_r; split; [reflexivity | simpl; lia]).
  - unfold analyze_change.
    destruct (find_pattern (lower change_description) (change_patterns s))
      as [[name P] |]; simpl.
    + eexists. split; [reflexivity | simpl; lia].
    + exists []. rewrite app_nil_r. split; [reflexivity | simpl; lia].
  - pose proof (get_statistics_state now (metrics s)) as H.
    destruct (get_statistics now (metrics s)) as [st m']. simpl in *.
    rewrite H. simpl. exists []. rewrite app_nil_r.
    split; [reflexivity | simpl; lia].
Qed.

(** X3: the history is append-only.  Whatever calls are served, the
    analyses recorded before are the front of the analyses recorded after,
    unchanged and in the same order; nothing is evicted, and at most one
    entry is added per [analyze_change] call. *)
Theorem history_append_only calls : forall s,
  exists tail,
    analyses (metrics (serve s calls)) = analyses (metrics s) ++ tail
    /\ List.length tail
       <= List.length (filter (fun nc => is_analysis_call (snd nc)) calls).
Proof.
  induction calls as [| [now c] rest IH]; intros s; simpl.
  - exists []. rewrite app_nil_r. split; [reflexivity | simpl; lia].
  - destruct (IH (snd (call_tool now s c))) as (tail2 & H2 & L2).
    destruct (call_tool_history now s c) as (tail1 & H1 & L1).
    exists (tail1 ++ tail2). rewrite H2, H1, app_assoc. split; [reflexivity |].
    rewrite length_app. destruct (is_analysis_call c); simpl; lia.
Qed.

(** X5: asking for the statistics is not a pure read.  It leaves the
    history, the usage counter and every count of the risk distribution as
    they are, but afterwards HIGH and CRITICAL are keys of the risk
    distribution, stored with 0 when they were missing; a second request
    changes nothing more. *)
Theorem get_statistics_touches_counter now now' m k :
  let m' := snd (get_statistics now m) in
  analyses m' = analyses m
  /\ pattern_usage m' = pattern_usage m
  /\ count (risk_distribution m') k = count (risk_distribution m) k
  /\ dict_get (risk_distribution m') "HIGH" <> None
  /\ dict_get (risk_distribution m') "CRITICAL" <> None
  /\ (dict_get (risk_distribution m) "HIGH" = None ->
      dict_get (risk_distribution m') "HIGH" = Some 0
      /\ risk_distribution m' <> risk_distribution m)
  /\ snd (get_statistics now' m') = m'.
Proof.
  intros m'. subst m'. rewrite !get_statistics_state. simpl.
  set (rd := risk_distribution m).
  set (rd1 := snd (dd_read rd "HIGH")).
  set (rd2 := snd (dd_read rd1 "CRITICAL")).
  assert (Hhigh : dict_get rd2 "HIGH" <> None).
  { subst rd2. rewrite dict_get_read_other by discriminate.
    apply dict_get_read_same. }
  assert (Hcrit : dict_get rd2 "CRITICAL" <> None)
    by apply dict_get_read_same.
  repeat split; auto.
  - subst rd2 rd1. now rewrite !dd_read_count.
  - subst rd2. rewrite dict_get_read_other by discriminate.
    subst rd1. unfold dd_read. rewrite H. simpl. apply dict_get_set_same.
  - intros E. rewrite E in Hhigh. contradiction.
  - f_equal. rewrite (dd_read_present rd2 "HIGH" Hhigh).
    apply dd_read_present. exact Hcrit.
Qed.

(** ** The rule store over a process lifetime *)

Lemma call_tool_rule_store now s c :
  knowledge_base (snd (call_tool now s c)) = knowledge_base s
  /\ change_patterns (snd (call_tool now s c)) = change_patterns s
  /\ risk_definitions (snd (call_tool now s c)) = risk_definitions s
  /\ workflows (snd (call_tool now s c)) = workflows s.
Proof.
  destruct c; simpl; auto.
  - unfold analyze_change.
    destruct (find_pattern (lower change_description) (change_patterns s))
      as [[name P] |]; simpl; auto.
  - destruct (get_statistics now (metrics s)); simpl; auto.
Qed.

Lemma serve_rule_store calls : forall s,
  knowledge_base (serve s calls) = knowledge_base s
  /\ change_patterns (serve s calls) = change_patterns s
  /\ risk_definitions (serve s calls) = risk_definitions s
  /\ workflows (serve s calls) = workflows s.
Proof.
  induction calls as [| [now c] rest IH]; intros s; simpl; [auto |].
  destruct (IH (snd (call_tool now s c))) as (A & B & C & D).
  destruct (call_tool_rule_store now s c) as (A' & B' & C' & D').
  repeat split; congruence.
Qed.

(** X6: what a description is classified as does not depend on what the
    server has served before.  No call changes the knowledge base, the
    pattern table, the risk definitions or the workflows, so after any
    calls [analyze_change] returns, for the same description and clock
    reading, the record it would have returned at the start, and the
    search, listing and approval tools answer as at the start. *)
Theorem answers_independent_of_history now s calls d q a :
  let s' := serve s calls in
  fst (analyze_change now s' d) = fst (analyze_change now s d)
  /\ search_knowledge s' q = search_knowledge s q
  /\ list_supported_changes s' = list_supported_changes s
  /\ create_approval_chain now (workflows s') a
     = create_approval_chain now (workflows s) a.
Proof.
  intros s'. destruct (serve_rule_store calls s) as (A & B & C & D).
  fold s' in A, B, C, D.
  unfold analyze_change, search_knowledge, list_supported_changes.
  rewrite A, B, C, D.
  destruct (find_pattern (lower d) (change_patterns s)) as [[name P] |];
    simpl; auto.
Qed.

(** ** Classifier, both directions *)

Lemma find_pattern_some text patterns name P :
  find_pattern text patterns = Some (name, P) ->
  exists pre post,
    patterns = pre ++ (name, P) :: post
    /\ any_keyword text P = true
    /\ forall q, In q pre -> any_keyword text (snd q) = false.
Proof.
  induction patterns as [| [n0 P0] rest IH]; simpl; [discriminate |].
  destruct (any_keyword text P0) eqn:E.
  - intros [= <- <-]. exists [], rest. repeat split; auto. intros q [].
  - intros H. destruct (IH H) as (pre & post & -> & HP & Hpre).
    exists ((n0, P0) :: pre), post. repeat split; auto.
    intros q [<- | Hq]; auto.
Qed.

Lemma analyze_change_matched now s d :
  a_matched_pattern (fst (analyze_change now s d))
  = option_map fst (find_pattern (lower d) (change_patterns s)).
Proof.
  unfold analyze_change.
  now destruct (find_pattern (lower d) (change_patterns s)) as [[name P] |].
Qed.

Lemma analyze_change_risk now s d name P :
  find_pattern (lower d) (change_patterns s) = Some (name, P) ->
  a_risk_level (fst (analyze_change now s d))
  = Some (get_or (p_risk_level P) "MEDIUM").
Proof. unfold analyze_change. now intros ->. Qed.

Lemma find_pattern_none_inv text patterns :
  find_pattern text patterns = None ->
  forall q, In q patterns -> any_keyword text (snd q) = false.
Proof.
  induction patterns as [| [n0 P0] rest IH]; simpl; [intros _ ? [] |].
  destruct (any_keyword text P0) eqn:E0; [discriminate |].
  intros H q0 [<- | H0]; auto.
Qed.

Lemma analyze_change_unmatched now s d :
  a_matched_pattern (fst (analyze_change now s d)) = None
  <-> forall q, In q (change_patterns s) -> ~ mentions d (snd q).
Proof.
  rewrite analyze_change_matched. split.
  - destruct (find_pattern (lower d) (change_patterns s)) as [[name P] |]
      eqn:E; [discriminate |].
    intros _ q Hq Hm. apply any_keyword_mentions in Hm.
    rewrite (find_pattern_none_inv _ _ E q Hq) in Hm. discriminate.
  - intros H. now rewrite (find_pattern_none d (change_patterns s) H).
Qed.

(** X7: [analyze_change] reports no matched pattern exactly when no
    configured pattern has a keyword occurring in the description; and when
    it reports [name], the table holds [name] with a pattern that has such
    a keyword, no entry before it has one, and the reported risk level is
    that pattern's (MEDIUM when it has none). *)
Theorem analyze_change_match_characterised now s d :
  let a := fst (analyze_change now s d) in
  (a_matched_pattern a = None <->
   forall q, In q (change_patterns s) -> ~ mentions d (snd q))
  /\ (forall name, a_matched_pattern a = Some name ->
      exists pre P post,
        change_patterns s = pre ++ (name, P) :: post
        /\ mentions d P
        /\ (forall q, In q pre -> ~ mentions d (snd q))
        /\ a_risk_level a = Some (get_or (p_risk_level P) "MEDIUM")).
Proof.
  intros a. subst a. split; [apply analyze_change_unmatched |].
  intros name Hname. rewrite analyze_change_matched in Hname.
  destruct (find_pattern (lower d) (change_patterns s)) as [[n P] |] eqn:E;
    [| discriminate].
  simpl in Hname. injection Hname as ->.
  destruct (find_pattern_some _ _ _ _ E) as (pre & post & Hs & HP & Hpre).
  exists pre, P, post. split; [exact Hs |].
  split; [now apply any_keyword_mentions |].
  split; [| now apply (analyze_change_risk now s d name P)].
  intros q Hq Hm. apply any_keyword_mentions in Hm.
  rewrite (Hpre q Hq) in Hm. discriminate.
Qed.

(** X8: keyword matching is substring matching on the lowercased strings,
    with no regard to word boundaries: a pattern matches a description
    exactly when the lowercased description can be cut into a front, one
    of the pattern's lowercased keywords, and a rest. *)
Theorem any_keyword_substring d P :
  any_keyword (lower d) P = true
  <-> exists k pre post,
        In k (get_or (p_keywords P) [])
        /\ lower d = String.append pre (String.append (lower k) post).
Proof.
  unfold any_keyword. rewrite existsb_exists. split.
  - intros (k & Hk & Hc). apply contains_append in Hc.
    destruct Hc as (pre & post & H). now exists k, pre, post.
  - intros (k & pre & post & Hk & H). exists k. split; [exact Hk |].
    apply contains_append. now exists pre, post.
Qed.

(** X9: the empty keyword and the empty description, [str.lower()] taking
    the empty string, and no other, to the empty string.  A pattern that has
    the empty string among its keywords matches every description, so if it
    comes first in the table every description is classified as it; and
    the empty description is matched by the first pattern that has the
    empty keyword, and by none when no pattern has it. *)
Theorem empty_keyword_and_empty_description now s :
  lower_agrees_on_ascii -> lower_keeps_nonempty ->
  (forall name P rest d,
      change_patterns s = (name, P) :: rest ->
      In "" (get_or (p_keywords P) []) ->
      a_matched_pattern (fst (analyze_change now s d)) = Some name)
  /\ (a_matched_pattern (fst (analyze_change now s "")) = None <->
      forall q, In q (change_patterns s) ->
                ~ In "" (get_or (p_keywords (snd q)) [])).
Proof.
  intros Hascii Hnonempty.
  assert (Hempty : lower "" = "")
    by exact (lower_literal "" Hascii eq_refl eq_refl).
  split.
  - intros name P rest d Hs Hin. rewrite analyze_change_matched, Hs. simpl.
    assert (E : any_keyword (lower d) P = true).
    { unfold any_keyword. apply existsb_exists. exists "". split; [exact Hin |].
      rewrite Hempty. apply contains_empty. }
    now rewrite E.
  - rewrite analyze_change_unmatched.
    assert (Hiff : forall P, mentions "" P <-> In "" (get_or (p_keywords P) [])).
    { intros P. unfold mentions, keyword_occurs. rewrite Hempty. split.
      - intros (k & Hk & Hc). apply contains_in_empty, Hnonempty in Hc.
        now subst.
      - intros Hin. exists "". split; [exact Hin |].
        rewrite Hempty. reflexivity. }
    split; intros H q Hq; [rewrite <- Hiff | rewrite Hiff]; now apply H.
Qed.

(** X10: classification looks at the description only through its
    lowercase form.  Two descriptions that differ in letter case alone get
    the same matched pattern and risk level and leave the same metrics
    behind (the history keeps no description); and since lowercasing twice
    is lowercasing once, this holds of a description and its lowercase
    form. *)
Theorem analyze_change_ignores_case now s d d' :
  lower d = lower d' ->
  a_matched_pattern (fst (analyze_change now s d))
  = a_matched_pattern (fst (analyze_change now s d'))
  /\ a_risk_level (fst (analyze_change now s d))
     = a_risk_level (fst (analyze_change now s d'))
  /\ snd (analyze_change now s d) = snd (analyze_change now s d')
  /\ (lower_idempotent ->
      a_matched_pattern (fst (analyze_change now s (lower d)))
      = a_matched_pattern (fst (analyze_change now s d))).
Proof.
  intros H. unfold analyze_change. rewrite <- H.
  destruct (find_pattern (lower d) (change_patterns s)) as [[name P] |] eqn:E;
    simpl; repeat split; intros Hidem; rewrite Hidem, E; reflexivity.
Qed.

(** X11: the review tool agrees with the analyzer.  For the record
    [analyze_change] returns, at whatever time the review is asked for,
    [create_review_task] creates a task exactly when the record says
    [requires_manual_review]; an unrecognised description, whose record has
    no such field, gets no task. *)
Theorem review_task_follows_analysis now now' s d :
  let a := fst (analyze_change now s d) in
  task_created (create_review_task now' a)
  = get_or (a_requires_manual_review a) false
  /\ (a_matched_pattern a = None ->
      a_requires_manual_review a = None
      /\ task_created (create_review_task now' a) = false).
Proof.
  intros a. subst a. unfold analyze_change.
  destruct (find_pattern (lower d) (change_patterns s)) as [[name P] |]; simpl.
  - split; [| discriminate].
    generalize (get_or (p_risk_level P) "MEDIUM"). intros r.
    unfold create_review_task, str_in. simpl.
    destruct (String.eqb r "HIGH"), (String.eqb r "CRITICAL"); reflexivity.
  - split; [reflexivity | intros _; split; reflexivity].
Qed.

Lemma find_pattern_In text patterns name P :
  find_pattern text patterns = Some (name, P) -> In (name, P) patterns.
Proof.
  intros H. destruct (find_pattern_some _ _ _ _ H) as (pre & post & -> & _).
  apply in_or_app. right. now left.
Qed.

(** X12: the listing agrees with the analyzer.  [list_supported_changes]
    lists the patterns under the table's keys, in the table's order; and
    whatever pattern [analyze_change] reports as matched appears in the
    listing under that name with the risk level the analysis reports. *)
Theorem listing_covers_analysis now s d :
  map sc_name (list_supported_changes s) = map fst (change_patterns s)
  /\ (forall name,
      a_matched_pattern (fst (analyze_change now s d)) = Some name ->
      exists c, In c (list_supported_changes s)
                /\ sc_name c = name
                /\ a_risk_level (fst (analyze_change now s d))
                   = Some (sc_risk_level c)).
Proof.
  split.
  - unfold list_supported_changes. rewrite map_map.
    apply map_ext. now intros [name p].
  - intros name. rewrite analyze_change_matched.
    destruct (find_pattern (lower d) (change_patterns s)) as [[n P] |] eqn:E;
      [| discriminate].
    simpl. intros [= ->].
    exists (mkSupportedChange name (get_or (p_description P) "")
                              (get_or (p_risk_level P) "MEDIUM")
                              (get_or (p_example P) "")).
    split; [| split; [reflexivity |]].
    + unfold list_supported_changes.
      apply (in_map (fun '(name, p) =>
                       mkSupportedChange name (get_or (p_description p) "")
                                         (get_or (p_risk_level p) "MEDIUM")
                                         (get_or (p_example p) ""))
                    _ (name, P)).
      now apply find_pattern_In with (text := lower d).
    + now apply analyze_change_risk with (name := name).
Qed.

(** ** Where the counters' keys come from *)

Lemma dict_get_incr_inv d k k' :
  dict_get (dd_incr d k) k' <> None -> k' = k \/ dict_get d k' <> None.
Proof.
  destruct (String.eqb_spec k k') as [<- | Hne]; [now left |].
  rewrite dict_get_incr_other, dict_get_read_other by assumption. now right.
Qed.

Lemma dict_get_read_inv d k k' :
  dict_get (snd (dd_read d k)) k' <> None -> k' = k \/ dict_get d k' <> None.
Proof.
  destruct (String.eqb_spec k k') as [<- | Hne]; [now left |].
  rewrite dict_get_read_other by assumption. now right.
Qed.

Lemma call_tool_keyed now s c :
  keyed (change_patterns s) (metrics s) ->
  keyed (change_patterns s) (metrics (snd (call_tool now s c))).
Proof.
  intros (Hr & Hp). destruct c; simpl; try (split; assumption).
  - unfold analyze_change.
    destruct (find_pattern (lower change_description) (change_patterns s))
      as [[name P] |] eqn:E; simpl; [| split; assumption].
    apply find_pattern_In in E. unfold record_analysis. split; simpl.
    + intros k Hk. apply dict_get_incr_inv in Hk.
      destruct Hk as [-> | Hk]; [| now apply Hr].
      right. right. unfold configured_risk_levels.
      apply (in_map (fun q => get_or (p_risk_level (snd q)) "MEDIUM")
                    _ (name, P) E).
    + destruct (String.eqb_spec name "") as [-> | Hne]; [exact Hp |].
      intros k Hk. apply dict_get_incr_inv in Hk.
      destruct Hk as [-> | Hk]; [| now apply Hp].
      split; [exact Hne |]. apply (in_map fst _ (name, P) E).
  - pose proof (get_statistics_state now (metrics s)) as H.
    destruct (get_statistics now (metrics s)) as [st m']. simpl in *.
    rewrite H. split; simpl; [| exact Hp].
    intros k Hk. apply dict_get_read_inv in Hk.
    destruct Hk as [-> | Hk]; [auto |].
    apply dict_get_read_inv in Hk. destruct Hk as [-> | Hk]; auto.
Qed.

Lemma serve_keyed calls : forall s,
  keyed (change_patterns s) (metrics s) ->
  keyed (change_patterns s) (metrics (serve s calls)).
Proof.
  induction calls as [| [now c] rest IH]; intros s H; simpl; [exact H |].
  pose proof (call_tool_keyed now s c H) as H'.
  destruct (call_tool_rule_store now s c) as (_ & B & _).
  rewrite <- B. apply IH. now rewrite B.
Qed.

(** X13: on a server started fresh, after any calls, every key of the risk
    distribution is HIGH, CRITICAL or a risk level some configured pattern
    carries (MEDIUM for a pattern without one), and every key of the usage
    counter is a nonempty name of the pattern table.  So unless a pattern
    itself is configured with risk level UNKNOWN, the count of UNKNOWN
    stays 0 however many unrecognised descriptions are analysed. *)
Theorem counter_keys_come_from_rule_store now0 kb patterns defs wf calls k :
  let m := metrics (serve (mkServer kb patterns defs wf
                                    (MetricsCollector_init now0)) calls) in
  (dict_get (risk_distribution m) k <> None ->
   k = "HIGH" \/ k = "CRITICAL" \/ In k (configured_risk_levels patterns))
  /\ (dict_get (pattern_usage m) k <> None ->
      k <> "" /\ In k (map fst patterns))
  /\ (~ In "UNKNOWN" (configured_risk_levels patterns) ->
      count (risk_distribution m) "UNKNOWN" = 0).
Proof.
  intros m.
  assert (H : keyed patterns m).
  { apply (serve_keyed calls
             (mkServer kb patterns defs wf (MetricsCollector_init now0))).
    split; simpl; intros k0 Hk0; congruence. }
  destruct H as (Hr & Hp). split; [apply Hr |]. split; [apply Hp |].
  intros Hno. unfold count.
  destruct (dict_get (risk_distribution m) "UNKNOWN") eqn:E; [| reflexivity].
  exfalso. destruct (Hr "UNKNOWN") as [H | [H | H]];
    [congruence | discriminate | discriminate | contradiction].
Qed.

(** ** Knowledge search *)

Lemma filter_all {A : Type} (f : A -> bool) (l : list A) :
  (forall x, In x l -> f x = true) -> filter f l = l.
Proof.
  induction l as [| x l IH]; intros H; simpl; [reflexivity |].
  rewrite (H x (or_introl eq_refl)), IH; [reflexivity |].
  intros y Hy. apply H. now right.
Qed.

(** X14: the empty query finds everything.  The empty string lowercasing
    to itself, [search_knowledge] with the empty string returns one hit for every entry of the knowledge base,
    category by category and in the order of the entries, entries without
    title or content included. *)
Theorem search_knowledge_empty_query s :
  lower_agrees_on_ascii ->
  search_knowledge s ""
  = flat_map (fun ci => map (hit_of (fst ci)) (snd ci)) (knowledge_base s).
Proof.
  intros Hascii. unfold search_knowledge.
  rewrite (lower_literal "" Hascii eq_refl eq_refl).
  induction (knowledge_base s) as [| [category items] rest IH]; simpl;
    [reflexivity |].
  rewrite IH, filter_all; [reflexivity |].
  intros item _. unfold entry_hits. now rewrite contains_empty.
Qed.

(** X15: search is sound and complete, and blind to the case of the query.
    A hit is returned exactly when the knowledge base holds, under the
    hit's category, an entry with the hit's title and content whose
    lowercased title or lowercased content (the empty string standing for a
    missing one) contains the lowercased query; and, lowercasing twice
    being lowercasing once, a query and its lowercase form return the same
    hits. *)
Theorem search_knowledge_hits s q h :
  (In h (search_knowledge s q) <->
   exists category items item,
     In (category, items) (knowledge_base s)
     /\ In item items
     /\ h = hit_of category item
     /\ (contains (lower q) (lower (get_or (k_title item) "")) = true
         \/ contains (lower q) (lower (get_or (k_content item) "")) = true))
  /\ (lower_idempotent ->
      search_knowledge s (lower q) = search_knowledge s q).
Proof.
  split.
  - unfold search_knowledge. rewrite in_flat_map. split.
    + intros ([category items] & Hkb & Hin). apply in_map_iff in Hin.
      destruct Hin as (item & <- & Hitem). apply filter_In in Hitem.
      destruct Hitem as (Hitem & Hhit). unfold entry_hits in Hhit.
      apply orb_true_iff in Hhit.
      exists category, items, item. auto.
    + intros (category & items & item & Hkb & Hitem & -> & Hhit).
      exists (category, items). split; [exact Hkb |].
      apply in_map_iff. exists item. split; [reflexivity |].
      apply filter_In. split; [exact Hitem |].
      unfold entry_hits. now apply orb_true_iff.
  - intros Hidem. unfold search_knowledge. now rewrite Hidem.
Qed.

(** ** Deployment validation in closed form *)

Lemma findings_before_environment_closed config :
  let n := get_or (replicas config) 0%Z in
  findings_before_environment config
  = ((if (n <? 2)%Z then [low_replicas_issue n] else [])
       ++ (if falsy (healthCheck config) then [no_health_check_issue] else []),
     (if (n <? 2)%Z then []
      else if (n <? 3)%Z then [suboptimal_replicas_warning n] else [])
       ++ (if falsy (limits_of config) then [no_limits_warning] else [])).
Proof.
  intros n. unfold findings_before_environment, limits_of. fold n.
  destruct (n <? 2)%Z; [| destruct (n <? 3)%Z];
    destruct (falsy match resources config with
                    | Some r => limits r
                    | None => None
                    end);
    destruct (falsy (healthCheck config)); reflexivity.
Qed.

Lemma validate_summary config :
  let r := validate_deployment_config config in
  total_issues (summary r) = List.length (issues r)
  /\ total_warnings (summary r) = List.length (warnings r)
  /\ blocking_issues (summary r)
     = List.length
         (filter (fun i => str_in (f_severity i) ["HIGH"; "CRITICAL"])
                 (issues r)).
Proof.
  unfold validate_deployment_config.
  destruct (findings_before_environment config) as [i w].
  repeat split; reflexivity.
Qed.

Lemma valid_characterised_aux config :
  valid (validate_deployment_config config) = true
  <-> (2 <= get_or (replicas config) 0)%Z
      /\ falsy (healthCheck config) = false.
Proof.
  destruct (validate_verdict config) as (Hv & _). rewrite Hv.
  rewrite validate_issues. cbv zeta.
  rewrite (findings_before_environment_closed config). cbv zeta. simpl fst.
  destruct (Z.ltb_spec (get_or (replicas config) 0%Z) 2);
    destruct (falsy (healthCheck config));
    destruct (String.eqb (get_or (environment config) "unknown") "production");
    simpl; split; try discriminate; try lia; intros [? ?];
    try discriminate; try lia; auto.
Qed.

(** X16: a configuration is valid exactly when it asks for at least two
    replicas (a missing count being 0) and has a nonempty health check;
    neither the environment nor the resource limits bear on validity: two
    configurations that differ in those alone get the same verdict. *)
Theorem valid_characterised config :
  (valid (validate_deployment_config config) = true
   <-> (2 <= get_or (replicas config) 0)%Z
       /\ falsy (healthCheck config) = false)
  /\ (forall res env,
      valid (validate_deployment_config
               (mkDeploymentConfig (replicas config) res
                                   (healthCheck config) env))
      = valid (validate_deployment_config config)).
Proof.
  split; [apply valid_characterised_aux |].
  intros res env.
  pose proof (valid_characterised_aux config) as H1.
  pose proof (valid_characterised_aux
                (mkDeploymentConfig (replicas config) res
                                    (healthCheck config) env)) as H2.
  simpl in H2.
  destruct (valid (validate_deployment_config config));
    destruct (valid (validate_deployment_config _)); try reflexivity.
  - apply (proj2 H2), (proj1 H1). reflexivity.
  - symmetry. apply (proj2 H1), (proj1 H2). reflexivity.
Qed.

(** X17: the three recommendations, in terms of the configuration.
    "BLOCK DEPLOYMENT" exactly when fewer than two replicas are asked for
    or the health check is missing or empty; "APPROVED" exactly when at
    least three replicas, nonempty resource limits and a nonempty health
    check are given; "PROCEED WITH CAUTION" in the remaining case, a valid
    configuration with two replicas or without limits. *)
Theorem recommendation_characterised config :
  let n := get_or (replicas config) 0%Z in
  let r := validate_deployment_config config in
  (recommendation r = "BLOCK DEPLOYMENT" <->
   (n < 2)%Z \/ falsy (healthCheck config) = true)
  /\ (recommendation r = "APPROVED" <->
      (3 <= n)%Z /\ falsy (limits_of config) = false
      /\ falsy (healthCheck config) = false)
  /\ (recommendation r = "PROCEED WITH CAUTION" <->
      (2 <= n)%Z /\ falsy (healthCheck config) = false
      /\ ((n < 3)%Z \/ falsy (limits_of config) = true)).
Proof.
  intros n r. destruct (validate_verdict config) as (_ & Hr).
  fold r in Hr. rewrite Hr. subst r.
  rewrite validate_issues, validate_warnings. cbv zeta.
  rewrite (findings_before_environment_closed config). cbv zeta. fold n.
  simpl fst. simpl snd.
  destruct (Z.ltb_spec n 2); [| destruct (Z.ltb_spec n 3)];
    destruct (falsy (healthCheck config));
    destruct (falsy (limits_of config));
    destruct (String.eqb (get_or (environment config) "unknown") "production");
    simpl; repeat split; intros; try discriminate; try lia; auto;
    repeat match goal with
           | H : _ /\ _ |- _ => destruct H
           | H : _ \/ _ |- _ => destruct H
           end; try discriminate; try lia.
Qed.

(** X18: the summary counts.  [total_issues] and [total_warnings] are the
    lengths of the two lists, at most 3 and 2; [blocking_issues] counts one
    for a replica count below 2 and one more in environment "production"
    when the replica count is below 2 or the health check is missing.  In
    production a missing health check alone, an issue of MEDIUM severity,
    thus gives [blocking_issues = 1]: the CRITICAL issue added for it. *)
Theorem summary_counts config :
  let n := get_or (replicas config) 0%Z in
  let r := validate_deployment_config config in
  let production :=
    String.eqb (get_or (environment config) "unknown") "production" in
  total_issues (summary r) = List.length (issues r)
  /\ total_warnings (summary r) = List.length (warnings r)
  /\ List.length (issues r) <= 3
  /\ List.length (warnings r) <= 2
  /\ blocking_issues (summary r)
     = (if (n <? 2)%Z then 1 else 0)
       + (if production && ((n <? 2)%Z || falsy (healthCheck config))
          then 1 else 0)
  /\ (production = true -> (2 <= n)%Z -> falsy (healthCheck config) = true ->
      issues r = [no_health_check_issue; production_issue]
      /\ blocking_issues (summary r) = 1).
Proof.
  intros n r production.
  destruct (validate_summary config) as (Hi & Hw & Hb). fold r in Hi, Hw, Hb.
  rewrite Hi, Hw, Hb. subst r.
  rewrite validate_issues, validate_warnings. cbv zeta.
  rewrite (findings_before_environment_closed config). cbv zeta.
  fold n production. simpl fst. simpl snd.
  destruct (Z.ltb_spec n 2); [| destruct (Z.ltb_spec n 3)];
    destruct (falsy (healthCheck config));
    destruct (falsy (limits_of config));
    destruct production;
    simpl; repeat split; intros; try discriminate; try lia; auto.
Qed.

(** ** Pipeline stages compared *)

Lemma stage_valid_closed stage config :
  let req := stage_requirements_for stage in
  sv_valid (validate_pipeline_stage stage config)
  = negb (get_or (replicas config) 0 <? min_replicas req)%Z
    && negb (require_health_check req && falsy (healthCheck config)).
Proof.
  intros req. unfold validate_pipeline_stage. fold req.
  destruct (get_or (replicas config) 0 <? min_replicas req)%Z;
    destruct (require_health_check req && falsy (healthCheck config));
    reflexivity.
Qed.

Lemma stage_requirements_cases stage :
  (lower stage = "dev"
   /\ stage_requirements_for stage = mkStageRequirements 1 false)
  \/ (lower stage = "staging"
      /\ stage_requirements_for stage = mkStageRequirements 2 true)
  \/ (lower stage <> "dev" /\ lower stage <> "staging"
      /\ stage_requirements_for stage = mkStageRequirements 3 true).
Proof.
  unfold stage_requirements_for. simpl.
  destruct (String.eqb_spec (lower stage) "dev") as [E | Hd]; [now left |].
  destruct (String.eqb_spec (lower stage) "staging") as [E | Hs];
    [right; now left |].
  right. right. now destruct (String.eqb (lower stage) "production").
Qed.

(** X19: production is the strictest stage and dev the most lenient, the
    two names lowercasing to themselves.  A
    configuration valid for stage "production" is valid for every stage
    name, known or not; and a configuration valid for any stage name is
    valid for "dev", where the only requirement is one replica. *)
Theorem stage_strictness stage config :
  lower_agrees_on_ascii ->
  (sv_valid (validate_pipeline_stage "production" config) = true ->
   sv_valid (validate_pipeline_stage stage config) = true)
  /\ (sv_valid (validate_pipeline_stage stage config) = true ->
      sv_valid (validate_pipeline_stage "dev" config) = true)
  /\ (sv_valid (validate_pipeline_stage "dev" config) = true <->
      (1 <= get_or (replicas config) 0)%Z).
Proof.
  intros Hascii. rewrite !stage_valid_closed. cbv zeta.
  rewrite (stage_requirements_production Hascii),
          (stage_requirements_dev Hascii).
  simpl min_replicas. simpl require_health_check.
  destruct (stage_requirements_cases stage)
    as [(_ & ->) | [(_ & ->) | (_ & _ & ->)]];
    simpl min_replicas; simpl require_health_check;
    destruct (falsy (healthCheck config)); simpl;
    repeat match goal with
           | |- context [(?a <? ?b)%Z] => destruct (Z.ltb_spec a b)
           end; simpl; repeat split; intros; try discriminate; try lia; auto.
Qed.

(** X20: the deployment validator and stage "staging" agree.  For every
    configuration, [validate_pipeline_stage] with a stage name that
    lowercases to "staging" finds it valid exactly when
    [validate_deployment_config] does. *)
Theorem staging_agrees_with_deployment_validation stage config :
  lower stage = "staging" ->
  sv_valid (validate_pipeline_stage stage config)
  = valid (validate_deployment_config config).
Proof.
  intros Hs. rewrite stage_valid_closed. cbv zeta.
  destruct (stage_requirements_cases stage)
    as [(E & _) | [(_ & ->) | (_ & E & _)]]; try congruence.
  simpl min_replicas. simpl require_health_check.
  pose proof (valid_characterised_aux config) as Hv.
  destruct (valid (validate_deployment_config config)).
  - destruct (proj1 Hv eq_refl) as (Hn & Hh). rewrite Hh.
    destruct (Z.ltb_spec (get_or (replicas config) 0%Z) 2);
      [lia | reflexivity].
  - destruct (Z.ltb_spec (get_or (replicas config) 0%Z) 2); [reflexivity |].
    destruct (falsy (healthCheck config)) eqn:Hh; [reflexivity |].
    assert (false = true) by (apply Hv; split; [lia | reflexivity]).
    discriminate.
Qed.

(** X21: stage names are compared without regard to case, and every name
    outside the table is treated as "production".  Two stage names with
    the same lowercase form give the same verdict and equally many issues
    of the same severities; a name that lowercases to none of dev, staging
    and production gives the verdict of "production". *)
Theorem stage_name_case_and_fallback stage stage' config :
  (lower stage = lower stage' ->
   sv_valid (validate_pipeline_stage stage config)
   = sv_valid (validate_pipeline_stage stage' config)
   /\ map si_severity (sv_issues (validate_pipeline_stage stage config))
      = map si_severity (sv_issues (validate_pipeline_stage stage' config)))
  /\ (lower_agrees_on_ascii ->
      lower stage <> "dev" -> lower stage <> "staging" ->
      lower stage <> "production" ->
      sv_valid (validate_pipeline_stage stage config)
      = sv_valid (validate_pipeline_stage "production" config)).
Proof.
  split.
  - intros H.
    assert (Hreq : stage_requirements_for stage = stage_requirements_for stage')
      by (unfold stage_requirements_for; now rewrite H).
    unfold validate_pipeline_stage. rewrite Hreq.
    destruct (get_or (replicas config) 0
              <? min_replicas (stage_requirements_for stage'))%Z;
      destruct (require_health_check (stage_requirements_for stage')
                && falsy (healthCheck config));
      split; reflexivity.
  - intros Hascii Hd Hs Hp. rewrite !stage_valid_closed. cbv zeta.
    rewrite (stage_requirements_production Hascii).
    destruct (stage_requirements_cases stage)
      as [(E & _) | [(E & _) | (_ & _ & ->)]]; congruence.
Qed.

(** ** The tool handler and the resource reader *)



(** X23: on a server whose collector was started by
    [MetricsCollector_init], [read_resource] raises TypeError for every
    URI, the configuration resources included and after any history of
    calls: the statistics are computed, and fail, before the URI is looked
    up. *)
Theorem read_resource_raises now0 kb patterns defs wf other calls now uri :
  let s := serve (mkServer kb patterns defs wf (MetricsCollector_init now0))
                 calls in
  fst (read_resource now s other uri) = Raise TypeError.
Proof.
  intros s. unfold read_resource.
  pose proof (get_statistics_raises now (metrics s)) as H.
  destruct (get_statistics now (metrics s)) as [st m']. simpl in H.
  rewrite H; [reflexivity |].
  subst s. now rewrite serve_start_time.
Qed.

(** ** What a matched analysis records *)

(** X24: when [analyze_change] matches a pattern, the history gains one
    entry, the last, carrying the timestamp, risk level, pattern name and
    review flag of the returned record; the count of the returned risk
    level goes up by one; and the usage of the pattern goes up by one,
    unless the pattern's name is the empty string, in which case the usage
    counter is left as it is. *)
Theorem analyze_change_records_match now s d name :
  a_matched_pattern (fst (analyze_change now s d)) = Some name ->
  let a := fst (analyze_change now s d) in
  let m := metrics s in
  let m' := metrics (snd (analyze_change now s d)) in
  analyses m'
  = analyses m ++ [mkHistoryEntry (a_timestamp a) (a_risk_level a)
                                  (Some name) (a_requires_manual_review a)]
  /\ (forall risk, a_risk_level a = Some risk ->
      count (risk_distribution m') risk = count (risk_distribution m) risk + 1)
  /\ (name <> "" -> count (pattern_usage m') name
                    = count (pattern_usage m) name + 1)
  /\ (name = "" -> pattern_usage m' = pattern_usage m).
Proof.
  unfold analyze_change.
  destruct (find_pattern (lower d) (change_patterns s)) as [[n P] |];
    [| discriminate].
  simpl. intros [= ->]. unfold record_analysis. simpl.
  split; [reflexivity |]. split; [| split].
  - intros risk [= <-]. apply count_dd_incr_same.
  - intros Hne. destruct (String.eqb_spec name ""); [contradiction |].
    apply count_dd_incr_same.
  - intros ->. reflexivity.
Qed.

End Core.

Arguments Ok {A} a.
Arguments Raise {A} e.

(** * Worked instances, with the ASCII lowercasing *)

(** The ASCII lowercasing has the three properties asked of
    [str.lower()]. *)
Lemma lower_ascii_idempotent c : lower_ascii (lower_ascii c) = lower_ascii c.
Proof. destruct c as [[] [] [] [] [] [] [] []]; reflexivity. Qed.

Lemma ascii_lower_idempotent : lower_idempotent ascii_lower.
Proof.
  intros s. induction s as [| c rest IH]; simpl; [reflexivity |].
  now rewrite lower_ascii_idempotent, IH.
Qed.

Lemma ascii_lower_keeps_nonempty : lower_keeps_nonempty ascii_lower.
Proof. intros s. destruct s; [reflexivity | discriminate]. Qed.

Lemma ascii_lower_agrees : lower_agrees_on_ascii ascii_lower.
Proof. intros s _. reflexivity. Qed.

Lemma analyze_change_unrecognized_not_recorded_witness :
  a_risk_level
    (fst (analyze_change ascii_lower demo_clock demo_server
                         "rotate the TLS certificate"))
  = Some "UNKNOWN"
  /\ snd (analyze_change ascii_lower demo_clock demo_server
                         "rotate the TLS certificate")
     = demo_server
  /\ count (risk_distribution
              (metrics (snd (analyze_change ascii_lower demo_clock demo_server
                                            "rotate the TLS certificate"))))
           "UNKNOWN"
     = count (risk_distribution (metrics demo_server)) "UNKNOWN".
Proof.
  apply (analyze_change_unrecognized_not_recorded ascii_lower
           demo_clock demo_server "rotate the TLS certificate").
  intros q Hq (k & Hk & Hocc). unfold keyword_occurs in Hocc.
  simpl in Hq.
  destruct Hq as [<- | [<- | []]]; simpl in Hk;
    destruct Hk as [<- | [<- | []]]; vm_compute in Hocc; discriminate.
Defined.

Lemma analyze_change_first_match_witness :
  a_matched_pattern
    (fst (analyze_change ascii_lower demo_clock demo_server
            "What happens if I reduce replicas from 3 to 1?"))
  = Some "scale_down_replicas"
  /\ a_risk_level
       (fst (analyze_change ascii_lower demo_clock demo_server
               "What happens if I reduce replicas from 3 to 1?"))
     = Some "HIGH".
Proof.
  destruct (analyze_change_first_match ascii_lower
              demo_clock demo_server
              "What happens if I reduce replicas from 3 to 1?"
              [("restart_service",
                mkChangePattern (Some ["restart"; "reboot"]) (Some "LOW")
                                None None None None None)]
              "scale_down_replicas"
              (mkChangePattern (Some ["reduce replicas"; "scale down"])
                               (Some "HIGH")
                               (Some ["Reduced fault tolerance"])
                               None None None None)
              [])
    as (Hname & Hrisk & _).
  - reflexivity.
  - intros q [<- | []] (k & Hk & Hocc). unfold keyword_occurs in Hocc.
    simpl in Hk. destruct Hk as [<- | [<- | []]];
      vm_compute in Hocc; discriminate.
  - exists "reduce replicas". split; [now left | reflexivity].
  - split; [exact Hname | exact Hrisk].
Defined.

Lemma create_approval_chain_estimate_witness :
  estimated_time_of
    (create_approval_chain demo_clock demo_workflows demo_high_analysis)
  = Some "Same day".
Proof.
  refine (proj1 (create_approval_chain_estimate
                   demo_clock demo_workflows demo_high_analysis _) _).
  - vm_compute. discriminate.
  - vm_compute. lia.
Defined.

Lemma create_review_task_decision_witness :
  task_created (create_review_task demo_clock demo_high_analysis) = true
  /\ priority_of (create_review_task demo_clock demo_high_analysis)
     = Some "MEDIUM".
Proof.
  pose proof (create_review_task_decision demo_clock demo_high_analysis) as H.
  cbv zeta in H. destruct H as (Hcreated & Hpriority & _).
  assert (Ht : task_created (create_review_task demo_clock demo_high_analysis)
               = true) by (apply Hcreated; left; reflexivity).
  split; [exact Ht |]. apply (proj2 (Hpriority Ht)). discriminate.
Defined.

Lemma create_approval_chain_selection_witness :
  approval_stages_of
    (create_approval_chain demo_clock demo_workflows demo_high_analysis)
  = Some [ mkRequiredApproval (Some "peer_review") "Peer review" true
                              ["dev-team"];
           mkRequiredApproval (Some "sre_approval") "SRE sign-off" false
                              ["sre-oncall"] ].
Proof.
  pose proof (create_approval_chain_selection
                demo_clock demo_workflows demo_high_analysis) as H.
  cbv zeta in H. destruct H as (Hnone & [Hfalse | (_ & Hstages)]).
  - exfalso. apply (proj1 Hnone Hfalse
                      (mkStage (Some "peer_review") (Some "Peer review")
                               (Some true) (Some ["dev-team"])
                               (Some ["MEDIUM"; "HIGH"; "CRITICAL"]))).
    + simpl. auto.
    + simpl. auto.
  - exact Hstages.
Defined.

Lemma replica_rule_witness :
  filter (on_field "replicas")
         (issues (validate_deployment_config (demo_config 1 "staging")))
  = [low_replicas_issue 1]
  /\ filter (on_field "replicas")
            (warnings (validate_deployment_config (demo_config 2 "staging")))
     = [suboptimal_replicas_warning 2]
  /\ filter (on_field "replicas")
            (issues (validate_deployment_config (demo_config 3 "staging")))
     = []
  /\ filter (on_field "replicas")
            (warnings (validate_deployment_config (demo_config 3 "staging")))
     = [].
Proof.
  pose proof (replica_rule (demo_config 1 "staging")) as H1.
  pose proof (replica_rule (demo_config 2 "staging")) as H2.
  pose proof (replica_rule (demo_config 3 "staging")) as H3.
  cbv zeta in H1, H2, H3.
  destruct H1 as (H1 & _). destruct H2 as (_ & H2 & _).
  destruct H3 as (_ & _ & H3 & _).
  split; [apply H1; reflexivity |].
  split; [apply H2; simpl; lia |].
  apply H3. simpl. lia.
Defined.

Lemma production_rule_and_verdict_witness :
  issues (validate_deployment_config (demo_config 1 "production"))
  = [low_replicas_issue 1; production_issue]
  /\ recommendation (validate_deployment_config (demo_config 1 "production"))
     = "BLOCK DEPLOYMENT".
Proof.
  pose proof (production_rule_and_verdict (demo_config 1 "production")) as H.
  cbv zeta in H. destruct H as (H & _).
  destruct H as (Hissues & _ & Hrec).
  - reflexivity.
  - simpl. discriminate.
  - split; [exact Hissues | exact Hrec].
Defined.

Lemma validate_pipeline_stage_requirements_witness :
  stage_requirements_for ascii_lower "QA" = mkStageRequirements 3 true
  /\ stage_requirements_for ascii_lower "Staging" = mkStageRequirements 2 true
  /\ (sv_valid (validate_pipeline_stage ascii_lower "QA" (demo_config 2 "qa"))
      = true
      <-> sv_issues (validate_pipeline_stage ascii_lower "QA"
                                             (demo_config 2 "qa")) = [])
  /\ stage_requirements_for ascii_lower "QA"
     = stage_requirements_for ascii_lower "production".
Proof.
  pose proof (validate_pipeline_stage_requirements ascii_lower
                "QA" (demo_config 2 "qa")) as Hqa.
  pose proof (validate_pipeline_stage_requirements ascii_lower
                "Staging" (demo_config 2 "staging")) as Hst.
  cbv zeta in Hqa, Hst.
  destruct Hqa as (_ & _ & _ & Hfallback & _ & _ & Hvalid).
  destruct Hst as (_ & Hstaging & _).
  destruct Hfallback as (Hthree & Hproduction);
    [simpl; discriminate | simpl; discriminate | simpl; discriminate |].
  split; [exact Hthree |].
  split; [apply Hstaging; reflexivity |].
  split; [exact Hvalid |].
  apply Hproduction. exact ascii_lower_agrees.
Defined.

Lemma read_only_calls_repeatable_witness :
  fst (call_tool ascii_lower demo_clock
         (serve ascii_lower
                (mkServer demo_knowledge demo_patterns [] demo_workflows
                          (MetricsCollector_init demo_clock))
                [ (demo_clock, call_search_knowledge "REPLICA");
                  (demo_clock, call_list_supported_changes);
                  (demo_clock,
                   call_validate_deployment_config
                     (demo_config 1 "production")) ])
         (call_search_knowledge "REPLICA"))
  = res_search [ mkSearchHit "scaling" (Some "Replica Counts")
                   (Some "Keep at least two replicas per service") ].
Proof.
  destruct (read_only_calls_repeatable ascii_lower
              demo_clock demo_clock
              (mkServer demo_knowledge demo_patterns [] demo_workflows
                        (MetricsCollector_init demo_clock))
              (call_search_knowledge "REPLICA")
              [ (demo_clock, call_list_supported_changes);
                (demo_clock,
                 call_validate_deployment_config
                   (demo_config 1 "production")) ]
              eq_refl eq_refl) as (_ & _ & _ & Hsame).
  rewrite Hsame. reflexivity.
Defined.

(** Eleven analyses of the same change: all eleven are recorded, the
    pattern's usage is eleven, the recent history keeps ten; asking for the
    statistics then raises, the start time being aware. *)
Example metrics_after_eleven_analyses :
  let s := serve ascii_lower demo_server
                 (repeat (demo_clock,
                          call_analyze_change "Reduce replicas from 3 to 1")
                         11) in
  List.length (analyses (metrics s)) = 11
  /\ List.length (last_n 10 (analyses (metrics s))) = 10
  /\ pattern_usage (metrics s) = [("scale_down_replicas", 11)]
  /\ risk_distribution (metrics s) = [("HIGH", 11)]
  /\ call_tool ascii_lower demo_clock s call_get_analysis_statistics
     = (res_statistics (Raise TypeError),
        with_metrics s
          (mkMetrics (analyses (metrics s))
                     [("HIGH", 11); ("CRITICAL", 0)]
                     (pattern_usage (metrics s))
                     (start_time (metrics s)))).
Proof. vm_compute. repeat split. Qed.

(** A description no pattern recognises leaves the collector empty. *)
Example metrics_after_unrecognized_analysis :
  let s := serve ascii_lower demo_server
                 [(demo_clock,
                   call_analyze_change "rotate the TLS certificate")] in
  List.length (analyses (metrics s)) = 0
  /\ count (risk_distribution (metrics s)) "UNKNOWN" = 0.
Proof. vm_compute. split; reflexivity. Qed.

Lemma get_statistics_touches_counter_witness :
  dict_get (risk_distribution
              (snd (get_statistics demo_clock
                      (MetricsCollector_init demo_clock)))) "HIGH"
  = Some 0.
Proof.
  pose proof (get_statistics_touches_counter
                demo_clock demo_clock (MetricsCollector_init demo_clock)
                "HIGH") as H.
  cbv zeta in H. destruct H as (_ & _ & _ & _ & _ & H & _).
  apply H. reflexivity.
Defined.

Lemma analyze_change_ignores_case_witness :
  a_matched_pattern
    (fst (analyze_change ascii_lower demo_clock demo_server
                         "REDUCE Replicas to 1"))
  = a_matched_pattern
      (fst (analyze_change ascii_lower demo_clock demo_server
                           "reduce replicas TO 1")).
Proof.
  apply (proj1 (analyze_change_ignores_case
                  ascii_lower demo_clock demo_server
                  "REDUCE Replicas to 1" "reduce replicas TO 1" eq_refl)).
Defined.

Lemma summary_counts_witness :
  issues (validate_deployment_config
            (mkDeploymentConfig (Some 3%Z) None None (Some "production")))
  = [no_health_check_issue; production_issue]
  /\ blocking_issues
       (summary (validate_deployment_config
                   (mkDeploymentConfig (Some 3%Z) None None
                                       (Some "production"))))
     = 1.
Proof.
  pose proof (summary_counts
                (mkDeploymentConfig (Some 3%Z) None None (Some "production")))
    as H.
  cbv zeta in H. destruct H as (_ & _ & _ & _ & _ & H).
  apply H; [reflexivity | simpl; lia | reflexivity].
Defined.

Lemma staging_agrees_with_deployment_validation_witness :
  sv_valid (validate_pipeline_stage ascii_lower "STAGING"
                                    (demo_config 2 "staging"))
  = valid (validate_deployment_config (demo_config 2 "staging")).
Proof.
  apply (staging_agrees_with_deployment_validation ascii_lower
           "STAGING" (demo_config 2 "staging")).
  reflexivity.
Defined.


Lemma analyze_change_records_match_witness :
  analyses (metrics (snd (analyze_change ascii_lower demo_clock demo_server
                            "Reduce replicas from 3 to 1")))
  = [mkHistoryEntry (Some "2026-01-01T00:00:00") (Some "HIGH")
                    (Some "scale_down_replicas") (Some true)].
Proof.
  pose proof (analyze_change_records_match ascii_lower
                demo_clock demo_server "Reduce replicas from 3 to 1"
                "scale_down_replicas" eq_refl) as H.
  cbv zeta in H. destruct H as (H & _). exact H.
Defined.

Lemma empty_keyword_and_empty_description_witness :
  a_matched_pattern (fst (analyze_change ascii_lower demo_clock demo_server ""))
  = None.
Proof.
  apply (proj2 (empty_keyword_and_empty_description
                  ascii_lower demo_clock demo_server
                  ascii_lower_agrees ascii_lower_keeps_nonempty)).
  intros q Hq Hin. simpl in Hq.
  destruct Hq as [<- | [<- | []]]; simpl in Hin;
    destruct Hin as [H | [H | []]]; discriminate.
Defined.

Lemma search_knowledge_empty_query_witness :
  search_knowledge ascii_lower
    (mkServer demo_knowledge demo_patterns [] demo_workflows
              (MetricsCollector_init demo_clock)) ""
  = [ mkSearchHit "scaling" (Some "Replica Counts")
                  (Some "Keep at least two replicas per service");
      mkSearchHit "scaling" (Some "Autoscaling") None ].
Proof.
  rewrite (search_knowledge_empty_query
             ascii_lower
             (mkServer demo_knowledge demo_patterns [] demo_workflows
                       (MetricsCollector_init demo_clock))
             ascii_lower_agrees).
  reflexivity.
Defined.

Lemma search_knowledge_hits_witness :
  search_knowledge ascii_lower
    (mkServer demo_knowledge demo_patterns [] demo_workflows
              (MetricsCollector_init demo_clock)) (ascii_lower "REPLICA")
  = search_knowledge ascii_lower
      (mkServer demo_knowledge demo_patterns [] demo_workflows
                (MetricsCollector_init demo_clock)) "REPLICA".
Proof.
  apply (proj2 (search_knowledge_hits
                  ascii_lower
                  (mkServer demo_knowledge demo_patterns [] demo_workflows
                            (MetricsCollector_init demo_clock))
                  "REPLICA"
                  (mkSearchHit "scaling" (Some "Autoscaling") None))).
  exact ascii_lower_idempotent.
Defined.

Lemma stage_strictness_witness :
  sv_valid (validate_pipeline_stage ascii_lower "QA"
                                    (demo_config 3 "production"))
  = true.
Proof.
  apply (proj1 (stage_strictness ascii_lower "QA"
                                 (demo_config 3 "production")
                                 ascii_lower_agrees)).
  reflexivity.
Defined.

Lemma stage_name_case_and_fallback_witness :
  sv_valid (validate_pipeline_stage ascii_lower "Prod-EU"
                                    (demo_config 2 "production"))
  = sv_valid (validate_pipeline_stage ascii_lower "production"
                                      (demo_config 2 "production")).
Proof.
  apply (proj2 (stage_name_case_and_fallback
                  ascii_lower "Prod-EU" "Prod-EU"
                  (demo_config 2 "production")));
    [exact ascii_lower_agrees | simpl; discriminate ..].
Defined.
